(** * NextStep AI frontend: session store, HTTP gateway, job feed store and
    swipe controller.

    A shallow embedding of the JavaScript sources

    - [frontend/src/api/client.js]   (axios instance and its interceptors),
    - [store/authStore.js]           (zustand store [useAuthStore]),
    - [store/jobsStore.js]           (zustand store [useJobsStore]),
    - [components/SwipeCard.jsx]     ([handleDragEnd], [CardStack]),
    - [pages/DiscoverPage.jsx]       ([handleSwipe], [handleApply],
                                      [handleLogout]),
    - [pages/LoginPage.jsx], [pages/SignupPage.jsx], [App.jsx],
    - [components/SignupWizard.jsx], [components/ApplyModal.jsx],
    - [pages/SavedJobsPage.jsx], [pages/ResumeAnalyzerPage.jsx],

    together with the properties the specification states about them.

    Conventions.  JavaScript numbers that index arrays are integers [Z];
    drag offsets are rationals [Q] (every finite double is one); [null] and
    [undefined] are [None]; [localStorage] is a finite map from keys to
    strings; an [async] function is a computation in a state monad with
    exceptions whose [await] records the store as it can be rendered while
    the promise is pending. *)

From Stdlib Require Import ZArith QArith List Ascii String Bool Lia.
From stdpp Require Import base gmap strings.
Import ListNotations.

Local Open Scope string_scope.
Local Open Scope Z_scope.

(** ** JavaScript helpers *)

Module Js.

(** Truthiness of a string: only the empty string is falsy. *)
Definition truthy (s : string) : bool :=
  match s with EmptyString => false | String _ _ => true end.

(** [v || d] for an optional string [v] and a string literal [d]. *)
Definition or_else (v : option string) (d : string) : string :=
  match v with
  | Some s => if truthy s then s else d
  | None => d
  end.

(** [arr[i]]: [undefined] outside [0 .. arr.length - 1]. *)
Definition index {A : Type} (arr : list A) (i : Z) : option A :=
  if i <? 0 then None else nth_error arr (Z.to_nat i).

(** [arr.length] as a JavaScript number. *)
Definition length {A : Type} (arr : list A) : Z := Z.of_nat (List.length arr).

(** [a < b] and [a > b] on numbers that are neither [NaN] nor infinite. *)
Definition lt (a b : Q) : bool := negb (Qle_bool b a).

Definition gt (a b : Q) : bool := negb (Qle_bool a b).

End Js.

(** ** The browser: [localStorage] and [window.location] *)

Record Browser := mkBrowser {
  localStorage : gmap string string;
  location_href : string
}.

Definition getItem (key : string) (b : Browser) : option string :=
  localStorage b !! key.

Definition setItem (key value : string) (b : Browser) : Browser :=
  {| localStorage := <[key := value]> (localStorage b);
     location_href := location_href b |}.

Definition removeItem (key : string) (b : Browser) : Browser :=
  {| localStorage := delete key (localStorage b);
     location_href := location_href b |}.

Definition navigate (href : string) (b : Browser) : Browser :=
  {| localStorage := localStorage b; location_href := href |}.

(** ** axios: requests, responses and errors *)

Module Axios.

(** The part of a request configuration the interceptors read or write.
    [_retry] is the flag the response interceptor adds to the object. *)
Record Config := mkConfig {
  url : string;
  Authorization : option string;
  _retry : bool
}.

Record Response := mkResponse {
  status : Z;
  data : string;
  (** [data.detail], when the body is an object carrying one. *)
  detail : option string
}.

(** What the transport delivers: a response, or nothing at all (network
    error). *)
Inductive Reply :=
| Replied (r : Response)
| NoReply.

(** [error.config] and [error.response] of an AxiosError. *)
Record AxiosError := mkError {
  config : Config;
  response : option Response
}.

(** A settled promise. *)
Inductive Settled (A : Type) :=
| Fulfilled (a : A)
| Rejected (error : AxiosError).
Arguments Fulfilled {A} a.
Arguments Rejected {A} error.

(** The error of a request that got no response. *)
Definition network_error : AxiosError :=
  {| config := {| url := ""; Authorization := None; _retry := false |};
     response := None |}.

Definition is_rejected {A : Type} (p : Settled A) : bool :=
  match p with Fulfilled _ => false | Rejected _ => true end.

(** axios' default [validateStatus]. *)
Definition validateStatus (status : Z) : bool :=
  (200 <=? status) && (status <? 300).

(** [error.response?.data] *)
Definition response_data (error : AxiosError) : option string :=
  match response error with Some r => Some (data r) | None => None end.

(** [error.response?.data?.detail] *)
Definition response_detail (error : AxiosError) : option string :=
  match response error with Some r => detail r | None => None end.

(** [error.response?.status === 401] *)
Definition unauthorized (error : AxiosError) : bool :=
  match response error with Some r => status r =? 401 | None => false end.

End Axios.

(** ** The HTTP gateway: [frontend/src/api/client.js] *)

Module ApiClient.
Import Axios.

Definition API_BASE : string := "/api".

(** What leaves the browser. *)
Inductive Event :=
| Sent (c : Config) (r : Reply)
    (* a request of the [api] instance and what came back *)
| RefreshPosted (refresh : string) (access : option string).
    (* [axios.post(API_BASE/auth/refresh/)]; [None]: the post was rejected *)

(** The remote side: its answers may depend on everything sent so far. *)
Record Network := mkNetwork {
  respond : list Event -> Config -> Reply;
  respond_refresh : list Event -> string -> option string
}.

Record World := mkWorld {
  browser : Browser;
  log : list Event
}.

Definition emit (e : Event) (w : World) : World :=
  {| browser := browser w; log := log w ++ [e] |}.

Definition on_browser (f : Browser -> Browser) (w : World) : World :=
  {| browser := f (browser w); log := log w |}.

Definition with_retry (c : Config) : Config :=
  {| url := url c; Authorization := Authorization c; _retry := true |}.

Definition with_Authorization (h : string) (c : Config) : Config :=
  {| url := url c; Authorization := Some h; _retry := _retry c |}.

(** [api.interceptors.request.use(config => ...)] *)
Definition request_interceptor (b : Browser) (config : Config) : Config :=
  match getItem "access_token" b with
  | Some token =>
      if Js.truthy token then with_Authorization ("Bearer " ++ token) config
      else config
  | None => config
  end.

Definition Outcome : Type := Settled Response * World.

(** The rejection handler of [api.interceptors.response.use].  [replay]
    stands for [api] itself, called on [originalRequest]. *)
Definition response_rejected (net : Network)
    (replay : Config -> World -> option Outcome)
    (error : AxiosError) (w : World) : option Outcome :=
  let originalRequest := config error in
  if unauthorized error && negb (_retry originalRequest) then
    (* the flag is written on the object [error.config] itself *)
    let originalRequest := with_retry originalRequest in
    let error := {| config := originalRequest; response := response error |} in
    match getItem "refresh_token" (browser w) with
    | Some refreshToken =>
        if Js.truthy refreshToken then
          let answer := respond_refresh net (log w) refreshToken in
          let w := emit (RefreshPosted refreshToken answer) w in
          match answer with
          | Some access =>
              let w := on_browser (setItem "access_token" access) w in
              let originalRequest :=
                with_Authorization ("Bearer " ++ access) originalRequest in
              replay originalRequest w
          | None =>
              let w := on_browser (removeItem "access_token") w in
              let w := on_browser (removeItem "refresh_token") w in
              let w := on_browser (navigate "/login") w in
              Some (Rejected error, w)
          end
        else Some (Rejected error, w)
    | None => Some (Rejected error, w)
    end
  else Some (Rejected error, w).

(** [api(config)]: request interceptor, transport, response interceptors.
    The replay re-enters [api]; [fuel] bounds that recursion.  axios keeps
    the properties it does not know when it merges a configuration, so the
    replayed request still carries [_retry]. *)
Fixpoint api (fuel : nat) (net : Network) (config : Config) (w : World)
    : option Outcome :=
  match fuel with
  | O => None
  | S fuel =>
      let config := request_interceptor (browser w) config in
      let reply := respond net (log w) config in
      let w := emit (Sent config reply) w in
      match reply with
      | Replied r =>
          if validateStatus (status r) then Some (Fulfilled r, w)
          else response_rejected net (api fuel net)
                 {| config := config; response := Some r |} w
      | NoReply =>
          response_rejected net (api fuel net)
            {| config := config; response := None |} w
      end
  end.

(** Counting what was sent. *)
Definition is_refresh (e : Event) : bool :=
  match e with RefreshPosted _ _ => true | Sent _ _ => false end.

Definition is_failed_refresh (e : Event) : bool :=
  match e with RefreshPosted _ None => true | _ => false end.

Definition is_replay (e : Event) : bool :=
  match e with Sent c _ => _retry c | RefreshPosted _ _ => false end.

Definition is_send (e : Event) : bool :=
  match e with Sent _ _ => true | RefreshPosted _ _ => false end.

Definition count (p : Event -> bool) (evs : list Event) : nat :=
  List.length (List.filter p evs).

Definition refresh_failed (evs : list Event) : bool :=
  existsb is_failed_refresh evs.

End ApiClient.

(** ** zustand stores and [async] functions

    A store is a value of type [S] changed by [set]; an [async] function of
    the store is a computation that reads and writes the store, the browser
    and the console, suspends at each [await] and may throw the error of a
    rejected promise.  [awaited] keeps, for each [await], the endpoint called
    and the store as it stood while the promise was pending: what a component
    subscribed to the store renders meanwhile. *)

Module Zustand.
Import Axios.

Section Store.
Variable S : Type.

Record World := mkWorld {
  store : S;
  browser : Browser;
  awaited : list (string * S);
  console : list string
}.

Inductive Completion (A : Type) :=
| Normal (a : A)
| Throw (error : AxiosError).

Definition Async (A : Type) : Type := World -> Completion A * World.

Definition ret {A : Type} (a : A) : Async A :=
  fun w => (Normal A a, w).

Definition bind {A B : Type} (k : A -> Async B) (m : Async A) : Async B :=
  fun w =>
    match m w with
    | (Normal _ a, w') => k a w'
    | (Throw _ error, w') => (Throw B error, w')
    end.

(** [get()] *)
Definition get : Async S :=
  fun w => (Normal S (store w), w).

(** [set(partial)] and [set(state => partial)]: the partial object is merged
    into the store, which [update] does field by field. *)
Definition set (update : S -> S) : Async unit :=
  fun w =>
    (Normal unit tt,
     {| store := update (store w); browser := browser w;
        awaited := awaited w; console := console w |}).

(** [await promise], for the promise of a call to [endpoint]. *)
Definition await {A : Type} (endpoint : string) (promise : Settled A)
    : Async A :=
  fun w =>
    let w' := {| store := store w; browser := browser w;
                 awaited := awaited w ++ [(endpoint, store w)];
                 console := console w |} in
    match promise with
    | Fulfilled a => (Normal A a, w')
    | Rejected error => (Throw A error, w')
    end.

(** [try { body } catch (error) { handler }] *)
Definition try_catch {A : Type} (body : Async A)
    (handler : AxiosError -> Async A) : Async A :=
  fun w =>
    match body w with
    | (Normal _ a, w') => (Normal A a, w')
    | (Throw _ error, w') => handler error w'
    end.

(** [console.error(message, error)] *)
Definition console_error (message : string) : Async unit :=
  fun w =>
    (Normal unit tt,
     {| store := store w; browser := browser w; awaited := awaited w;
        console := console w ++ [message] |}).

Definition on_browser (f : Browser -> Browser) : Async unit :=
  fun w =>
    (Normal unit tt,
     {| store := store w; browser := f (browser w); awaited := awaited w;
        console := console w |}).

(** A world in which nothing has been awaited or logged yet. *)
Definition boot (s : S) (b : Browser) : World :=
  {| store := s; browser := b; awaited := []; console := [] |}.

End Store.

Arguments store {S} _.
Arguments browser {S} _.
Arguments awaited {S} _.
Arguments console {S} _.
Arguments Normal {A} a.
Arguments Throw {A} error.
Arguments ret {S A} a _.
Arguments bind {S A B} k m _.
Arguments get {S} _.
Arguments set {S} update _.
Arguments await {S A} endpoint promise _.
Arguments try_catch {S A} body handler _.
Arguments console_error {S} message _.
Arguments on_browser {S} f _.
Arguments boot {S} s b.

#[global] Instance async_ret (S : Type) : MRet (Async S) := @ret S.
#[global] Instance async_bind (S : Type) : MBind (Async S) := @bind S.

(** The store a computation leaves behind, and what it returned. *)
Definition final {S A : Type} (m : Async S A) (w : World S) : World S :=
  snd (m w).

Definition returned {S A : Type} (m : Async S A) (w : World S)
    : Completion A :=
  fst (m w).

(** The stores rendered at the [await]s of a run started in [w]. *)
Definition rendered {S A : Type} (m : Async S A) (w : World S) : list S :=
  List.map snd (skipn (List.length (awaited w)) (awaited (final m w))).

(** The endpoints of the calls of the API client a run started in [w]
    awaited, in order. *)
Definition called {S A : Type} (m : Async S A) (w : World S) : list string :=
  List.map fst (skipn (List.length (awaited w)) (awaited (final m w))).

(** The side effect contract of a mutator, for a store whose fields [error]
    and [isLoading] are read by [error_of] and [loading_of]: a run that
    failed leaves an error in the store, and the store rendered at each
    [await] of the run is loading. *)
Definition error_on_failure {S A : Type} (error_of : S -> option string)
    (m : Async S A) (failed : bool) (w : World S) : Prop :=
  failed = true -> error_of (store (final m w)) <> None.

Definition loading_while_pending {S A : Type} (loading_of : S -> bool)
    (m : Async S A) (w : World S) : Prop :=
  Forall (fun s => loading_of s = true) (rendered m w).

(** The work has resolved: the store the run leaves is not loading. *)
Definition idle_when_resolved {S A : Type} (loading_of : S -> bool)
    (m : Async S A) (w : World S) : Prop :=
  loading_of (store (final m w)) = false.

(** A run that writes neither field. *)
Definition leaves_untouched {S A B : Type} (field_of : S -> B)
    (m : Async S A) (w : World S) : Prop :=
  field_of (store (final m w)) = field_of (store w)
  /\ Forall (fun s => field_of s = field_of (store w)) (rendered m w).

End Zustand.

(** ** The session store: [store/authStore.js]

    The [persist] middleware copies [isAuthenticated], and nothing else, to
    the key [auth-storage] after each [set]; no function below reads it,
    and [set] below leaves that write out: of the browser this module
    follows the keys [access_token] and [refresh_token] and the location. *)

Module AuthStore.
Import Axios Zustand.

Section Session.
(** [user] and [profile] are records owned by the server. *)
Variables User Profile : Type.

Record State := mkState {
  user : option User;
  profile : option Profile;
  isAuthenticated : bool;
  isLoading : bool;
  error : option string
}.

Definition initial : State :=
  {| user := None; profile := None; isAuthenticated := false;
     isLoading := false; error := None |}.

Definition with_user (v : option User) (s : State) : State :=
  {| user := v; profile := profile s; isAuthenticated := isAuthenticated s;
     isLoading := isLoading s; error := error s |}.

Definition with_profile (v : option Profile) (s : State) : State :=
  {| user := user s; profile := v; isAuthenticated := isAuthenticated s;
     isLoading := isLoading s; error := error s |}.

Definition with_isAuthenticated (v : bool) (s : State) : State :=
  {| user := user s; profile := profile s; isAuthenticated := v;
     isLoading := isLoading s; error := error s |}.

Definition with_isLoading (v : bool) (s : State) : State :=
  {| user := user s; profile := profile s;
     isAuthenticated := isAuthenticated s; isLoading := v; error := error s |}.

Definition with_error (v : option string) (s : State) : State :=
  {| user := user s; profile := profile s;
     isAuthenticated := isAuthenticated s; isLoading := isLoading s;
     error := v |}.

(** Request and response bodies. *)
Record Credentials := mkCredentials {
  username : string;
  cred_password : string
}.

Record UserData := mkUserData {
  email : string;
  password : string
}.

Record RegistrationData := mkRegistrationData {
  userData : UserData;
  password_confirm : string
}.

Record Tokens := mkTokens {
  access : string;
  refresh : string
}.

(** [authAPI] and [profileAPI] of [client.js], as the promises their calls
    settle to once the gateway is through with them.  What the gateway does
    to the browser on the way (the refresh and the logout of
    [ApiClient.response_rejected]) belongs to [ApiClient] and is not
    repeated by [await]. *)
Record Api := mkApi {
  authAPI_register : RegistrationData -> Settled unit;
  authAPI_login : Credentials -> Settled Tokens;
  authAPI_getMe : Settled User;
  profileAPI_get : Settled Profile;
  profileAPI_update : Profile -> Settled Profile
}.

(** [Promise.all([p, q])]: rejected with the first rejection. *)
Definition Promise_all {A B : Type} (p : Settled A) (q : Settled B)
    : Settled (A * B) :=
  match p, q with
  | Fulfilled a, Fulfilled b => Fulfilled (a, b)
  | Rejected error, _ => Rejected error
  | Fulfilled _, Rejected error => Rejected error
  end.

Variable api : Api.

(** [fetchUser: async () => { try { ... } catch { ... } }] *)
Definition fetchUser : Async State unit :=
  try_catch
    ('(userRes, profileRes) ←
        await "/auth/me/ /profile/"
          (Promise_all (authAPI_getMe api) (profileAPI_get api));
     set (with_user (Some userRes) ∘ with_profile (Some profileRes)
          ∘ with_isAuthenticated true))
    (fun _ =>
       set (with_user None ∘ with_profile None ∘ with_isAuthenticated false)).

(** [login: async (email, password) => { ... }] *)
Definition login (email password : string) : Async State bool :=
  set (with_isLoading true ∘ with_error None);;
  try_catch
    (response ←
       await "/auth/login/"
         (authAPI_login api
            {| username := email; cred_password := password |});
     on_browser (setItem "access_token" (access response));;
     on_browser (setItem "refresh_token" (refresh response));;
     (* Fetch user profile *)
     fetchUser;;
     set (with_isAuthenticated true ∘ with_isLoading false);;
     mret true)
    (fun error =>
       set (with_error
              (Some (Js.or_else (response_detail error) "Login failed"))
            ∘ with_isLoading false);;
       mret false).

(** [register: async (userData) => { ... }] *)
Definition register (userData : UserData) : Async State bool :=
  set (with_isLoading true ∘ with_error None);;
  try_catch
    (let registrationData :=
       {| userData := userData; password_confirm := password userData |} in
     await "/auth/register/" (authAPI_register api registrationData);;
     (* Auto-login after register *)
     login (email userData) (password userData))
    (fun error =>
       set (with_error
              (Some (Js.or_else (response_data error) "Registration failed"))
            ∘ with_isLoading false);;
       mret false).

(** [updateProfile: async (data) => { ... }] *)
Definition updateProfile (data : Profile) : Async State bool :=
  set (with_isLoading true);;
  try_catch
    (response ← await "/profile/" (profileAPI_update api data);
     set (with_profile (Some response) ∘ with_isLoading false);;
     mret true)
    (fun error =>
       set (with_error
              (Some (Js.or_else (response_data error) "Update failed"))
            ∘ with_isLoading false);;
       mret false).

(** [logout: () => { ... }] *)
Definition logout : Async State unit :=
  on_browser (removeItem "access_token");;
  on_browser (removeItem "refresh_token");;
  set (with_user None ∘ with_profile None ∘ with_isAuthenticated false
       ∘ with_error None).

(** [clearError: () => set({ error: null })] *)
Definition clearError : Async State unit :=
  set (with_error None).

(** The asynchronous mutators of the store, and when a call of one has
    failed: when a request it awaits is rejected.  For [login] that is the
    request to [/auth/login/]; [fetchUser] has its own handler. *)
Inductive Mutator :=
| Login (email password : string)
| Register (userData : UserData)
| FetchUser
| UpdateProfile (data : Profile).

Definition call (m : Mutator) : Async State unit :=
  match m with
  | Login email password => login email password;; mret tt
  | Register userData => register userData;; mret tt
  | FetchUser => fetchUser
  | UpdateProfile data => updateProfile data;; mret tt
  end.

Definition login_rejected (email password : string) : bool :=
  is_rejected
    (authAPI_login api {| username := email; cred_password := password |}).

Definition fails (m : Mutator) : bool :=
  match m with
  | Login email password => login_rejected email password
  | Register userData =>
      is_rejected
        (authAPI_register api
           {| userData := userData; password_confirm := password userData |})
      || login_rejected (email userData) (password userData)
  | FetchUser =>
      is_rejected (Promise_all (authAPI_getMe api) (profileAPI_get api))
  | UpdateProfile data => is_rejected (profileAPI_update api data)
  end.

End Session.

Arguments user {User Profile} _.
Arguments profile {User Profile} _.
Arguments isAuthenticated {User Profile} _.
Arguments isLoading {User Profile} _.
Arguments error {User Profile} _.
Arguments initial {User Profile}.
Arguments mkApi {User Profile} _ _ _ _ _.
Arguments authAPI_register {User Profile} _ _.
Arguments authAPI_login {User Profile} _ _.
Arguments authAPI_getMe {User Profile} _.
Arguments profileAPI_get {User Profile} _.
Arguments profileAPI_update {User Profile} _ _.
Arguments fetchUser {User Profile} api _.
Arguments login {User Profile} api email password _.
Arguments register {User Profile} api userData _.
Arguments updateProfile {User Profile} api data _.
Arguments Login {Profile} email password.
Arguments Register {Profile} userData.
Arguments FetchUser {Profile}.
Arguments UpdateProfile {Profile} data.
Arguments call {User Profile} api m _.
Arguments fails {User Profile} api m.
Arguments logout {User Profile} _.
Arguments clearError {User Profile} _.

End AuthStore.

(** ** The job feed store: [store/jobsStore.js] *)

Module JobsStore.
Import Axios Zustand.

(** A job of the feed, or an entry of [/saved-jobs/] (which carries a
    [status]).  Only the fields the store reads are kept. *)
Record Job := mkJob {
  id : Z;
  title : string;
  status : option string
}.

Record State := mkState {
  jobs : list Job;
  currentIndex : Z;
  savedJobs : list Job;
  appliedJobs : list Job;
  isLoading : bool;
  error : option string
}.

Definition initial : State :=
  {| jobs := []; currentIndex := 0; savedJobs := []; appliedJobs := [];
     isLoading := false; error := None |}.

Definition with_jobs (v : list Job) (s : State) : State :=
  {| jobs := v; currentIndex := currentIndex s; savedJobs := savedJobs s;
     appliedJobs := appliedJobs s; isLoading := isLoading s;
     error := error s |}.

Definition with_currentIndex (v : Z) (s : State) : State :=
  {| jobs := jobs s; currentIndex := v; savedJobs := savedJobs s;
     appliedJobs := appliedJobs s; isLoading := isLoading s;
     error := error s |}.

Definition with_savedJobs (v : list Job) (s : State) : State :=
  {| jobs := jobs s; currentIndex := currentIndex s; savedJobs := v;
     appliedJobs := appliedJobs s; isLoading := isLoading s;
     error := error s |}.

Definition with_appliedJobs (v : list Job) (s : State) : State :=
  {| jobs := jobs s; currentIndex := currentIndex s; savedJobs := savedJobs s;
     appliedJobs := v; isLoading := isLoading s; error := error s |}.

Definition with_isLoading (v : bool) (s : State) : State :=
  {| jobs := jobs s; currentIndex := currentIndex s; savedJobs := savedJobs s;
     appliedJobs := appliedJobs s; isLoading := v; error := error s |}.

Definition with_error (v : option string) (s : State) : State :=
  {| jobs := jobs s; currentIndex := currentIndex s; savedJobs := savedJobs s;
     appliedJobs := appliedJobs s; isLoading := isLoading s; error := v |}.

(** The body of [GET /jobs/recommended/]: a page object with a [results]
    array, or the array itself. *)
Inductive Recommended :=
| Page (results : list Job)
| Plain (data : list Job).

(** [response.data.results || response.data]; an array, even an empty one,
    is truthy. *)
Definition results_or_data (response : Recommended) : list Job :=
  match response with
  | Page results => results
  | Plain data => data
  end.

(** The body of [POST /saved-jobs/]. *)
Record SaveRequest := mkSaveRequest {
  job : Z;
  save_status : string
}.

(** [jobsAPI] and [savedJobsAPI] of [client.js], as the promises their calls
    settle to. *)
Record Api := mkApi {
  jobsAPI_recommended : Settled Recommended;
  savedJobsAPI_save : SaveRequest -> Settled unit;
  savedJobsAPI_list : Settled (list Job)
}.

(** [j.status === tag] *)
Definition status_is (tag : string) (j : Job) : bool :=
  match status j with
  | Some s => String.eqb s tag
  | None => false
  end.

Section Mutators.
Variable api : Api.

(** [fetchRecommended: async () => { ... }] *)
Definition fetchRecommended : Async State unit :=
  set (with_isLoading true ∘ with_error None);;
  try_catch
    (response ← await "/jobs/recommended/" (jobsAPI_recommended api);
     set (with_jobs (results_or_data response) ∘ with_currentIndex 0
          ∘ with_isLoading false))
    (fun error =>
       set (with_error
              (Some (Js.or_else (response_data error) "Failed to fetch jobs"))
            ∘ with_isLoading false)).

(** [getCurrentJob: () => jobs[currentIndex] || null] *)
Definition getCurrentJob : Async State (option Job) :=
  s ← get;
  mret (Js.index (jobs s) (currentIndex s)).

(** [skipJob: () => { ... }] *)
Definition skipJob : Async State unit :=
  s ← get;
  if currentIndex s <? Js.length (jobs s) - 1
  then set (with_currentIndex (currentIndex s + 1))
  else mret tt.

(** [saveJob: async (job) => { ... }] *)
Definition saveJob (job : Job) : Async State unit :=
  try_catch
    (await "/saved-jobs/"
       (savedJobsAPI_save api {| job := id job; save_status := "saved" |});;
     set (fun state =>
            (with_savedJobs (savedJobs state ++ [job])
             ∘ with_currentIndex (currentIndex state + 1)) state))
    (fun error => console_error "Failed to save job:").

(** [applyToJob: async (job) => { ... }] *)
Definition applyToJob (job : Job) : Async State bool :=
  try_catch
    (await "/saved-jobs/"
       (savedJobsAPI_save api {| job := id job; save_status := "applied" |});;
     set (fun state =>
            (with_appliedJobs (appliedJobs state ++ [job])
             ∘ with_currentIndex (currentIndex state + 1)) state);;
     mret true)
    (fun error =>
       console_error "Failed to apply:";;
       mret false).

(** [fetchSavedJobs: async () => { ... }] *)
Definition fetchSavedJobs : Async State unit :=
  try_catch
    (response ← await "/saved-jobs/" (savedJobsAPI_list api);
     let saved := List.filter (status_is "saved") response in
     let applied := List.filter (status_is "applied") response in
     set (with_savedJobs saved ∘ with_appliedJobs applied))
    (fun error => console_error "Failed to fetch saved jobs:").

(** [hasMoreJobs: () => currentIndex < jobs.length] *)
Definition hasMoreJobs : Async State bool :=
  s ← get;
  mret (currentIndex s <? Js.length (jobs s)).

(** The asynchronous mutators of the store, and when a call of one has
    failed: when the request it awaits is rejected. *)
Inductive Mutator :=
| FetchRecommended
| SaveJob (job : Job)
| ApplyToJob (job : Job)
| FetchSavedJobs.

Definition call (m : Mutator) : Async State unit :=
  match m with
  | FetchRecommended => fetchRecommended
  | SaveJob job => saveJob job
  | ApplyToJob job => applyToJob job;; mret tt
  | FetchSavedJobs => fetchSavedJobs
  end.

Definition fails (m : Mutator) : bool :=
  match m with
  | FetchRecommended => is_rejected (jobsAPI_recommended api)
  | SaveJob job =>
      is_rejected
        (savedJobsAPI_save api {| job := id job; save_status := "saved" |})
  | ApplyToJob job =>
      is_rejected
        (savedJobsAPI_save api {| job := id job; save_status := "applied" |})
  | FetchSavedJobs => is_rejected (savedJobsAPI_list api)
  end.

End Mutators.

(** One call of a mutator, with the answer of the server where it makes a
    request.  The store can be driven by any sequence of them, each with
    any job.  Every write to [jobs], [currentIndex], [savedJobs] and
    [appliedJobs] is the last step of its call, after the only [await] of
    that call; calls that overlap in time therefore change these fields as
    the same calls made one after the other, in the order in which their
    requests settle. *)
Inductive Op :=
| OpFetchRecommended (answer : Settled Recommended)
| OpSkip
| OpSave (job : Job) (answer : Settled unit)
| OpApply (job : Job) (answer : Settled unit)
| OpFetchSaved (answer : Settled (list Job)).

(** The server that gives [answer] to the one call [op] makes; the requests
    [op] does not make are given a network error. *)

Definition answering_recommended (answer : Settled Recommended) : Api :=
  {| jobsAPI_recommended := answer;
     savedJobsAPI_save := fun _ => Rejected network_error;
     savedJobsAPI_list := Rejected network_error |}.

Definition answering_save (answer : Settled unit) : Api :=
  {| jobsAPI_recommended := Rejected network_error;
     savedJobsAPI_save := fun _ => answer;
     savedJobsAPI_list := Rejected network_error |}.

Definition answering_list (answer : Settled (list Job)) : Api :=
  {| jobsAPI_recommended := Rejected network_error;
     savedJobsAPI_save := fun _ => Rejected network_error;
     savedJobsAPI_list := answer |}.

Definition perform (op : Op) (w : World State) : World State :=
  match op with
  | OpFetchRecommended answer =>
      final (fetchRecommended (answering_recommended answer)) w
  | OpSkip => final (skipJob) w
  | OpSave job answer => final (saveJob (answering_save answer) job) w
  | OpApply job answer => final (applyToJob (answering_save answer) job) w
  | OpFetchSaved answer => final (fetchSavedJobs (answering_list answer)) w
  end.

(** The worlds the store can be in: those a sequence of calls leads to from
    the initial store. *)
Inductive reachable (b : Browser) : World State -> Prop :=
| reachable_boot : reachable b (boot initial b)
| reachable_perform op w : reachable b w -> reachable b (perform op w).

(** [skipJob()] called [n] times. *)
Definition skips (n : nat) (w : World State) : World State :=
  Nat.iter n (final skipJob) w.

(** The cursor and the length of the feed of a world. *)
Definition cursor (w : World State) : Z := currentIndex (store w).

Definition feed_length (w : World State) : Z := Js.length (jobs (store w)).

End JobsStore.

(** ** The swipe card: [components/SwipeCard.jsx] *)

Module SwipeCard.

Record Point := mkPoint {
  x : Q;
  y : Q
}.

(** The [info] argument of framer-motion's [onDragEnd]. *)
Record PanInfo := mkPanInfo {
  offset : Point
}.

(** What [handleDragEnd] does: it sets the exit animation and calls the
    [onSwipe] property. *)
Inductive Effect :=
| SetExitX (v : Z)
| OnSwipe (action : string).

(** [handleDragEnd = (_, info) => { ... }] *)
Definition handleDragEnd (info : PanInfo) : list Effect :=
  let threshold := 100%Q in
  if Js.gt (x (offset info)) threshold then
    [SetExitX 300; OnSwipe "apply"]
  else if Js.lt (x (offset info)) (- threshold)%Q then
    [SetExitX (-300); OnSwipe "skip"]
  else if Js.lt (y (offset info)) (- threshold)%Q then
    [OnSwipe "save"]
  else [].

(** The decisions a release commits: the actions [onSwipe] is called with. *)
Definition decisions (effects : list Effect) : list string :=
  omap (fun e => match e with OnSwipe a => Some a | SetExitX _ => None end)
       effects.

End SwipeCard.

(** ** The discover page: [pages/DiscoverPage.jsx] *)

Module DiscoverPage.
Import Zustand JobsStore.

(** The [useState] cells of the component. *)
Record Page := mkPage {
  showApplyModal : bool;
  selectedJob : option Job;
  showMenu : bool
}.

Record View := mkView {
  stores : World State;
  page : Page
}.

(** [const currentJob = jobs[currentIndex]], read from the store the
    component last rendered. *)
Definition currentJob (v : View) : option Job :=
  Js.index (jobs (store (stores v))) (currentIndex (store (stores v))).

Section Handlers.
Variable api : Api.

(** [handleSwipe = (action) => { ... }].  [saveJob] is started without
    [await]: the handler returns while the request is pending and the store
    changes when the server answers.  Here the answer is taken to arrive
    before the next event of the page; saves that overlap are sequences of
    [JobsStore.perform]. *)
Definition handleSwipe (action : string) (v : View) : View :=
  match currentJob v with
  | None => v
  | Some currentJob =>
      if String.eqb action "skip" then
        {| stores := final skipJob (stores v); page := page v |}
      else if String.eqb action "save" then
        {| stores := final (saveJob api currentJob) (stores v);
           page := page v |}
      else if String.eqb action "apply" then
        {| stores := stores v;
           page := {| showApplyModal := true;
                      selectedJob := Some currentJob;
                      showMenu := showMenu (page v) |} |}
      else v
  end.

(** [handleApply = async () => { ... }] *)
Definition handleApply (v : View) : View :=
  match selectedJob (page v) with
  | Some job =>
      {| stores := final (applyToJob api job) (stores v);
         page := {| showApplyModal := false;
                    selectedJob := None;
                    showMenu := showMenu (page v) |} |}
  | None => v
  end.

(** A drag released on the top card: [SwipeCard] is given
    [onSwipe={handleSwipe}]; [setExitX] stays inside the card. *)
Definition dragEnd (info : SwipeCard.PanInfo) (v : View) : View :=
  fold_left
    (fun v e =>
       match e with
       | SwipeCard.OnSwipe action => handleSwipe action v
       | SwipeCard.SetExitX _ => v
       end)
    (SwipeCard.handleDragEnd info) v.

(** The buttons of [SwipeActions]. *)
Definition onSkip : View -> View := handleSwipe "skip".
Definition onSave : View -> View := handleSwipe "save".
Definition onApply : View -> View := handleSwipe "apply".

End Handlers.

End DiscoverPage.

(** ** JavaScript arrays and strings *)

Module JsArray.

(** [arr.includes(x)] on an array of strings. *)
Definition includes (x : string) (arr : list string) : bool :=
  existsb (String.eqb x) arr.

(** The index [slice] starts or ends at: a negative one counts from the
    end, and both are kept within [0 .. len]. *)
Definition relative (len i : Z) : Z :=
  if i <? 0 then Z.max (len + i) 0 else Z.min i len.

(** [arr.slice(start, end)] *)
Definition slice {A : Type} (arr : list A) (start stop : Z) : list A :=
  let len := Js.length arr in
  let k := relative len start in
  let final := relative len stop in
  firstn (Z.to_nat (final - k)) (skipn (Z.to_nat k) arr).

End JsArray.

(** Strings are sequences of ASCII characters: on those [toLowerCase] keeps
    the length and changes [A-Z] only, and [trim] removes tab, line feed,
    vertical tab, form feed, carriage return and space. *)
Module JsString.

Definition is_ascii (s : string) : bool :=
  forallb (fun a => (nat_of_ascii a <? 128)%nat) (list_ascii_of_string s).

Definition lower (a : ascii) : ascii :=
  let n := nat_of_ascii a in
  if ((65 <=? n) && (n <=? 90))%nat then ascii_of_nat (n + 32) else a.

(** [s.toLowerCase()] *)
Fixpoint toLowerCase (s : string) : string :=
  match s with
  | EmptyString => EmptyString
  | String a s' => String (lower a) (toLowerCase s')
  end.

(** [s.lastIndexOf(c)], scanning from position [i] with the last match
    [found] so far; [-1] when there is none. *)
Fixpoint lastIndexOf_from (c : ascii) (s : string) (i found : Z) : Z :=
  match s with
  | EmptyString => found
  | String a s' =>
      lastIndexOf_from c s' (i + 1) (if Ascii.eqb a c then i else found)
  end.

Definition lastIndexOf (c : ascii) (s : string) : Z :=
  lastIndexOf_from c s 0 (-1).

Fixpoint drop (n : nat) (s : string) : string :=
  match n, s with
  | O, _ => s
  | S _, EmptyString => EmptyString
  | S n', String _ s' => drop n' s'
  end.

(** [s.slice(start)] *)
Definition slice (s : string) (start : Z) : string :=
  drop (Z.to_nat (JsArray.relative (Z.of_nat (String.length s)) start)) s.

Definition is_whitespace (a : ascii) : bool :=
  let n := nat_of_ascii a in
  ((9 <=? n) && (n <=? 13) || (n =? 32))%nat.

(** A string of white space only. *)
Definition is_blank (s : string) : bool :=
  forallb is_whitespace (list_ascii_of_string s).

Fixpoint trimStart (s : string) : string :=
  match s with
  | EmptyString => EmptyString
  | String a s' => if is_whitespace a then trimStart s' else s
  end.

Definition reverse (s : string) : string :=
  string_of_list_ascii (List.rev (list_ascii_of_string s)).

(** [s.trim()] *)
Definition trim (s : string) : string :=
  reverse (trimStart (reverse (trimStart s))).

End JsString.

(** ** Components: [useState] cells, the stores they use, the router

    A component's handlers run in the same monad as the stores.  A handler
    that has cells of its own and also calls a store runs on the pair of
    the two states. *)

Module React.
Import Axios Zustand.

(** A mutator of the store, called by a handler whose own cells are [L]. *)
Definition lift {L S A : Type} (m : Async S A) : Async (L * S) A :=
  fun w =>
    let cells := fst (store w) in
    let inner :=
      {| store := snd (store w); browser := browser w; awaited := [];
         console := console w |} in
    let (completion, inner') := m inner in
    (completion,
     {| store := (cells, store inner');
        browser := browser inner';
        awaited :=
          awaited w
          ++ List.map (fun p => (fst p, (cells, snd p))) (awaited inner');
        console := console inner' |}).

(** A [setState] of the component. *)
Definition setCells {L S : Type} (update : L -> L) : Async (L * S) unit :=
  set (fun s => (update (fst s), snd s)).

(** [localStorage.getItem(key)] *)
Definition localStorage_getItem {S : Type} (key : string)
    : Async S (option string) :=
  fun w => (Normal (getItem key (browser w)), w).

(** [navigate(path)] of [useNavigate]. *)
Definition navigate_to {S : Type} (path : string) : Async S unit :=
  on_browser (navigate path).

End React.

(** ** The card stack: [CardStack] in [components/SwipeCard.jsx] *)

Module CardStack.
Import JobsStore.

(** [const visibleCards = jobs.slice(currentIndex, currentIndex + 3)] *)
Definition visibleCards (jobs : list Job) (currentIndex : Z) : list Job :=
  JsArray.slice jobs currentIndex (currentIndex + 3).

(** The card rendered with [isTop={index === 0}]: the only one that can be
    dragged. *)
Definition topCard (jobs : list Job) (currentIndex : Z) : option Job :=
  List.head (visibleCards jobs currentIndex).

(** [visibleCards.length === 0]: the panel that says no jobs are left. *)
Definition noMoreJobs (jobs : list Job) (currentIndex : Z) : bool :=
  Js.length (visibleCards jobs currentIndex) =? 0.

(** [disabled={!currentJob}] of [SwipeActions] on the discover page. *)
Definition actionsDisabled (jobs : list Job) (currentIndex : Z) : bool :=
  match Js.index jobs currentIndex with
  | Some _ => false
  | None => true
  end.

End CardStack.

(** ** The login page: [pages/LoginPage.jsx] *)

Module LoginPage.
Import Axios Zustand.

Section Handlers.
Context {User Profile : Type}.
Variable api : AuthStore.Api User Profile.

(** [handleSubmit = async (e) => { ... }], with the [email] and [password]
    cells of the form. *)
Definition handleSubmit (email password : string)
    : Async (AuthStore.State User Profile) unit :=
  AuthStore.clearError;;
  success ← AuthStore.login api email password;
  if success : bool then React.navigate_to "/discover" else mret tt.

End Handlers.

End LoginPage.

(** ** The routes: [App.jsx] *)

Module App.
Import Axios Zustand.

(** The routes of [Routes]; [NoMatch] is the path [*]. *)
Inductive Route :=
| Login
| Signup
| Discover
| Saved
| ResumeAnalyzer
| Root
| NoMatch.

Inductive PageName :=
| LoginPage
| SignupPage
| DiscoverPage
| SavedJobsPage
| ResumeAnalyzerPage.

(** What a route renders: a page, or [<Navigate to=... replace />]. *)
Inductive Element :=
| Page (p : PageName)
| Navigate (to : Route).

(** [ProtectedRoute({ children })] *)
Definition ProtectedRoute (isAuthenticated : bool) (children : Element)
    : Element :=
  if negb isAuthenticated then Navigate Login else children.

(** [AuthRoute({ children })] *)
Definition AuthRoute (isAuthenticated : bool) (children : Element)
    : Element :=
  if isAuthenticated then Navigate Discover else children.

(** The [element] of each [Route]. *)
Definition element (isAuthenticated : bool) (r : Route) : Element :=
  match r with
  | Login => AuthRoute isAuthenticated (Page LoginPage)
  | Signup => AuthRoute isAuthenticated (Page SignupPage)
  | Discover => ProtectedRoute isAuthenticated (Page DiscoverPage)
  | Saved => ProtectedRoute isAuthenticated (Page SavedJobsPage)
  | ResumeAnalyzer =>
      ProtectedRoute isAuthenticated (Page ResumeAnalyzerPage)
  | Root => Navigate Discover
  | NoMatch => Navigate Root
  end.

(** The page shown for a route once the redirections are followed. *)
Fixpoint resolve (fuel : nat) (isAuthenticated : bool) (r : Route)
    : option PageName :=
  match fuel with
  | O => None
  | S fuel =>
      match element isAuthenticated r with
      | Page p => Some p
      | Navigate to => resolve fuel isAuthenticated to
      end
  end.

Section Content.
Context {User Profile : Type}.
Variable api : AuthStore.Api User Profile.

(** One run of the effect of [AppContent]: [if (token && !isAuthenticated)
    fetchUser()]. *)
Definition mountEffect : Async (AuthStore.State User Profile) unit :=
  token ← React.localStorage_getItem "access_token";
  s ← get;
  if match token with Some t => Js.truthy t | None => false end
     && negb (AuthStore.isAuthenticated s)
  then AuthStore.fetchUser api
  else mret tt.

(** [handleLogout] of the discover page. *)
Definition handleLogout : Async (AuthStore.State User Profile) unit :=
  AuthStore.logout;;
  React.navigate_to "/login".

End Content.

End App.

(** ** The signup wizard: [components/SignupWizard.jsx] *)

Module SignupWizard.
Import Axios Zustand.

(** The [formData] cell.  [field] of the source is [field_] here. *)
Record FormData := mkFormData {
  firstName : string;
  lastName : string;
  email : string;
  password : string;
  degree : string;
  field_ : string;
  institution : string;
  graduationYear : string;
  status : string;
  skills : list string;
  bio : string;
  portfolioUrl : string;
  linkedinUrl : string;
  preferredJobTypes : list string;
  preferredLocations : list string;
  resumeText : string
}.

Definition emptyForm : FormData :=
  {| firstName := ""; lastName := ""; email := ""; password := "";
     degree := ""; field_ := ""; institution := ""; graduationYear := "";
     status := "student"; skills := []; bio := ""; portfolioUrl := "";
     linkedinUrl := ""; preferredJobTypes := []; preferredLocations := [];
     resumeText := "" |}.

(** The keys [toggleArrayItem] is called with. *)
Inductive ArrayField :=
| Skills
| PreferredJobTypes
| PreferredLocations.

Definition read (field : ArrayField) (prev : FormData) : list string :=
  match field with
  | Skills => skills prev
  | PreferredJobTypes => preferredJobTypes prev
  | PreferredLocations => preferredLocations prev
  end.

(** [{ ...prev, [field]: items }] *)
Definition write (field : ArrayField) (items : list string)
    (prev : FormData) : FormData :=
  {| firstName := firstName prev; lastName := lastName prev;
     email := email prev; password := password prev; degree := degree prev;
     field_ := field_ prev; institution := institution prev;
     graduationYear := graduationYear prev; status := status prev;
     skills := match field with Skills => items | _ => skills prev end;
     bio := bio prev; portfolioUrl := portfolioUrl prev;
     linkedinUrl := linkedinUrl prev;
     preferredJobTypes :=
       match field with
       | PreferredJobTypes => items
       | _ => preferredJobTypes prev
       end;
     preferredLocations :=
       match field with
       | PreferredLocations => items
       | _ => preferredLocations prev
       end;
     resumeText := resumeText prev |}.

(** [prev[field].includes(item) ? prev[field].filter(i => i !== item)
                               : [...prev[field], item]] *)
Definition toggled (items : list string) (item : string) : list string :=
  if JsArray.includes item items
  then List.filter (fun i => negb (String.eqb i item)) items
  else items ++ [item].

(** [toggleArrayItem = (field, item) => setFormData(prev => ...)] *)
Definition toggleArrayItem (field : ArrayField) (item : string)
    (prev : FormData) : FormData :=
  write field (toggled (read field prev) item) prev.

(** [disabled={!formData.skills.includes(skill)
              && formData.skills.length >= 10}] of a skill button. *)
Definition skillDisabled (skill : string) (formData : FormData) : bool :=
  negb (JsArray.includes skill (skills formData))
  && (10 <=? Js.length (skills formData)).

(** A click on a skill button: a disabled button does not call its
    handler. *)
Definition clickSkill (skill : string) (formData : FormData) : FormData :=
  if skillDisabled skill formData then formData
  else toggleArrayItem Skills skill formData.

(** [handleNext] and [handleBack] on the [step] cell. *)
Definition handleNext (step : Z) : Z :=
  if step <? 6 then step + 1 else step.

Definition handleBack (step : Z) : Z :=
  if 1 <? step then step - 1 else step.

(** The buttons of the wizard's footer. *)
Inductive Click :=
| Next
| Back.

Definition click (c : Click) (step : Z) : Z :=
  match c with
  | Next => handleNext step
  | Back => handleBack step
  end.

(** The cells [handleSubmit] writes. *)
Record Cells := mkCells {
  formData : FormData;
  isLoading : bool;
  error : option string
}.

Definition setIsLoading (v : bool) (c : Cells) : Cells :=
  {| formData := formData c; isLoading := v; error := error c |}.

Definition setError (v : option string) (c : Cells) : Cells :=
  {| formData := formData c; isLoading := isLoading c; error := v |}.

(** The body of [PATCH /profile/] the wizard sends; the profile the server
    answers with is read as the same record. *)
Record ProfileData := mkProfileData {
  profile_bio : string;
  preferred_job_types : list string;
  preferred_locations : list string;
  resume_text : string
}.

Section Submit.
Context {User : Type}.
Variable api : AuthStore.Api User ProfileData.

(** The [onComplete] property, when one is given. *)
Variable onComplete :
  option (Async (Cells * AuthStore.State User ProfileData) unit).

(** [err.message] of an error of axios. *)
Variable message_of : AxiosError -> option string.

(** The [try] block of [handleSubmit].  [Some message] stands for
    [throw new Error(message)].  Of the body of the register request the
    store reads [email] and [password] only. *)
Definition submitted
    : Async (Cells * AuthStore.State User ProfileData) (option string) :=
  s ← get;
  let data := formData (fst s) in
  (* Register user *)
  success ←
    React.lift
      (AuthStore.register api
         {| AuthStore.email := email data;
            AuthStore.password := password data |});
  if negb success then mret (Some "Registration failed")
  else
    (* Update profile with additional info *)
    React.lift
      (AuthStore.updateProfile api
         {| profile_bio := bio data;
            preferred_job_types := preferredJobTypes data;
            preferred_locations := preferredLocations data;
            resume_text := resumeText data |});;
    match onComplete with
    | Some callback => callback
    | None => mret tt
    end;;
    mret None.

(** [handleSubmit = async () => { ... }] *)
Definition handleSubmit
    : Async (Cells * AuthStore.State User ProfileData) unit :=
  React.setCells (setIsLoading true);;
  React.setCells (setError None);;
  try_catch
    (thrown ← submitted;
     match thrown with
     | Some message =>
         React.setCells
           (setError (Some (Js.or_else (Some message) "Something went wrong")))
     | None => mret tt
     end)
    (fun err =>
       React.setCells
         (setError
            (Some (Js.or_else (message_of err) "Something went wrong"))));;
  React.setCells (setIsLoading false).

End Submit.

(** [SignupPage]: [handleComplete = () => navigate('/discover')], given to
    the wizard as [onComplete]. *)
Definition handleComplete {S : Type} : Async S unit :=
  React.navigate_to "/discover".

End SignupWizard.

(** ** The apply modal: [components/ApplyModal.jsx] *)

Module ApplyModal.
Import Axios Zustand.

(** The body of the answer of [POST /ai/generate-email/]. *)
Record Email := mkEmail {
  subject : string;
  body : string
}.

Record Cells := mkCells {
  isGenerating : bool;
  email : option Email;
  copied : bool;
  error : option string
}.

Definition closed : Cells :=
  {| isGenerating := false; email := None; copied := false; error := None |}.

Definition setIsGenerating (v : bool) (c : Cells) : Cells :=
  {| isGenerating := v; email := email c; copied := copied c;
     error := error c |}.

Definition setEmail (v : option Email) (c : Cells) : Cells :=
  {| isGenerating := isGenerating c; email := v; copied := copied c;
     error := error c |}.

Definition setError (v : option string) (c : Cells) : Cells :=
  {| isGenerating := isGenerating c; email := email c; copied := copied c;
     error := v |}.

Section Handlers.
(** [aiAPI.generateEmail({ job_id })] *)
Variable aiAPI_generateEmail : Z -> Settled Email.

(** [generateEmail = async () => { ... }] for the modal of [job]. *)
Definition generateEmail (job : JobsStore.Job) : Async Cells unit :=
  set (setIsGenerating true);;
  set (setError None);;
  try_catch
    (response ←
       await "/ai/generate-email/"
         (aiAPI_generateEmail (JobsStore.id job));
     set (setEmail (Some response)))
    (fun err =>
       set (setError
              (Some "Failed to generate email. You can still apply directly!")));;
  set (setIsGenerating false).

End Handlers.

End ApplyModal.

(** ** The saved jobs page: [SavedJobsPage] in [pages/SavedJobsPage.jsx] *)

Module SavedJobsPage.
Import Axios Zustand.

Section Handlers.
Variable api : JobsStore.Api.

(** [savedJobsAPI.delete(id)] *)
Variable savedJobsAPI_delete : Z -> Settled unit.

(** [removeJob = async (id) => { await savedJobsAPI.delete(id);
    fetchSavedJobs(); }] *)
Definition removeJob (id : Z) : Async JobsStore.State unit :=
  await "/saved-jobs/:id/" (savedJobsAPI_delete id);;
  JobsStore.fetchSavedJobs api.

End Handlers.

End SavedJobsPage.

(** ** The resume analyzer: [ResumeAnalyzerPage] in
    [pages/SavedJobsPage.jsx] *)

Module ResumeAnalyzerPage.
Import Axios Zustand.

(** The fields of a [File] the page reads. *)
Record File := mkFile {
  name : string;
  type : string;
  size : Z
}.

(** What is posted to [/ai/analyze-resume/]: a [FormData] with the file, or
    a JSON object with the text; [job_id] is there when a job is selected. *)
Inductive Payload :=
| FormDataBody (resume_file : File) (job_id : option string)
| JsonBody (resume_text : string) (job_id : option Z).

Definition validTypes : list string :=
  ["application/pdf";
   "application/vnd.openxmlformats-officedocument.wordprocessingml.document"].

Definition validExtensions : list string := [".pdf"; ".docx"].

(** [isValidFile = (file) => { ... }] *)
Definition isValidFile (file : File) : bool :=
  let ext :=
    JsString.slice (JsString.toLowerCase (name file))
      (JsString.lastIndexOf "."%char (name file)) in
  JsArray.includes (type file) validTypes
  || JsArray.includes ext validExtensions.

Section Page.
(** The body of the answer of the analysis, kept as the server sends it. *)
Variable Analysis : Type.

Record Cells := mkCells {
  inputMode : string;
  resumeText : string;
  resumeFile : option File;
  isDragging : bool;
  selectedJobId : string;
  isAnalyzing : bool;
  analysis : option Analysis;
  error : option string
}.

Definition initial : Cells :=
  {| inputMode := "upload"; resumeText := ""; resumeFile := None;
     isDragging := false; selectedJobId := ""; isAnalyzing := false;
     analysis := None; error := None |}.

Definition setResumeFile (v : option File) (c : Cells) : Cells :=
  {| inputMode := inputMode c; resumeText := resumeText c; resumeFile := v;
     isDragging := isDragging c; selectedJobId := selectedJobId c;
     isAnalyzing := isAnalyzing c; analysis := analysis c;
     error := error c |}.

Definition setIsDragging (v : bool) (c : Cells) : Cells :=
  {| inputMode := inputMode c; resumeText := resumeText c;
     resumeFile := resumeFile c; isDragging := v;
     selectedJobId := selectedJobId c; isAnalyzing := isAnalyzing c;
     analysis := analysis c; error := error c |}.

Definition setIsAnalyzing (v : bool) (c : Cells) : Cells :=
  {| inputMode := inputMode c; resumeText := resumeText c;
     resumeFile := resumeFile c; isDragging := isDragging c;
     selectedJobId := selectedJobId c; isAnalyzing := v;
     analysis := analysis c; error := error c |}.

Definition setAnalysis (v : option Analysis) (c : Cells) : Cells :=
  {| inputMode := inputMode c; resumeText := resumeText c;
     resumeFile := resumeFile c; isDragging := isDragging c;
     selectedJobId := selectedJobId c; isAnalyzing := isAnalyzing c;
     analysis := v; error := error c |}.

Definition setError (v : option string) (c : Cells) : Cells :=
  {| inputMode := inputMode c; resumeText := resumeText c;
     resumeFile := resumeFile c; isDragging := isDragging c;
     selectedJobId := selectedJobId c; isAnalyzing := isAnalyzing c;
     analysis := analysis c; error := v |}.

(** [handleFileSelect = (file) => { ... }]; [None] is the [undefined] of an
    empty file list. *)
Definition handleFileSelect (file : option File) : Async Cells unit :=
  match file with
  | None => mret tt
  | Some file =>
      if negb (isValidFile file) then
        set (setError (Some "Please upload a PDF or DOCX file"))
      else if 10 * 1024 * 1024 <? size file then
        set (setError (Some "File size must be less than 10MB"))
      else
        set (setResumeFile (Some file));;
        set (setError None)
  end.

(** [handleDrop = (e) => { ... }], with the files of [e.dataTransfer]. *)
Definition handleDrop (files : list File) : Async Cells unit :=
  set (setIsDragging false);;
  handleFileSelect (Js.index files 0).

(** [handleFileInput = (e) => { ... }], with the files of [e.target]. *)
Definition handleFileInput (files : list File) : Async Cells unit :=
  handleFileSelect (Js.index files 0).

(** [removeFile = () => { ... }]; the reset of the input element leaves the
    cells alone. *)
Definition removeFile : Async Cells unit :=
  set (setResumeFile None).

(** [canAnalyze = () => { ... }] *)
Definition canAnalyze (c : Cells) : bool :=
  if String.eqb (inputMode c) "upload" then
    match resumeFile c with Some _ => true | None => false end
  else Js.truthy (JsString.trim (resumeText c)).

(** [aiAPI.analyzeResume(data)] of [client.js]. *)
Variable aiAPI_analyzeResume : Payload -> Settled Analysis.

(** [parseInt] on the value of the job selector. *)
Variable parseInt : string -> Z.

(** [err.response?.data?.error] *)
Variable response_error : AxiosError -> option string.

(** The body [analyzeResume] builds from the cells. *)
Definition payload (c : Cells) : Payload :=
  match String.eqb (inputMode c) "upload", resumeFile c with
  | true, Some file =>
      FormDataBody file
        (if Js.truthy (selectedJobId c) then Some (selectedJobId c)
         else None)
  | _, _ =>
      JsonBody (resumeText c)
        (if Js.truthy (selectedJobId c)
         then Some (parseInt (selectedJobId c))
         else None)
  end.

(** [analyzeResume = async () => { ... }] *)
Definition analyzeResume : Async Cells unit :=
  c ← get;
  if negb (canAnalyze c) then
    set (setError
           (Some (if String.eqb (inputMode c) "upload"
                  then "Please upload your resume file"
                  else "Please paste your resume text")))
  else
    set (setIsAnalyzing true);;
    set (setError None);;
    set (setAnalysis None);;
    try_catch
      (response ←
         await "/ai/analyze-resume/" (aiAPI_analyzeResume (payload c));
       set (setAnalysis (Some response)))
      (fun err =>
         set (setError
                (Some (Js.or_else (response_error err)
                         "Failed to analyze resume. Please try again."))));;
    set (setIsAnalyzing false).

Definition setInputMode (v : string) (c : Cells) : Cells :=
  {| inputMode := v; resumeText := resumeText c;
     resumeFile := resumeFile c; isDragging := isDragging c;
     selectedJobId := selectedJobId c; isAnalyzing := isAnalyzing c;
     analysis := analysis c; error := error c |}.

Definition setResumeText (v : string) (c : Cells) : Cells :=
  {| inputMode := inputMode c; resumeText := v;
     resumeFile := resumeFile c; isDragging := isDragging c;
     selectedJobId := selectedJobId c; isAnalyzing := isAnalyzing c;
     analysis := analysis c; error := error c |}.

Definition setSelectedJobId (v : string) (c : Cells) : Cells :=
  {| inputMode := inputMode c; resumeText := resumeText c;
     resumeFile := resumeFile c; isDragging := isDragging c;
     selectedJobId := v; isAnalyzing := isAnalyzing c;
     analysis := analysis c; error := error c |}.

(** What a user can do on the page: the handlers above and the inline
    [onClick] and [onChange] of the mode buttons, the text area and the
    job selector. *)
Inductive Action :=
| DropFiles (files : list File)
| ChooseFiles (files : list File)
| RemoveFile
| SwitchMode (upload : bool)
| TypeText (text : string)
| SelectJob (id : string)
| Analyze.

Definition act (a : Action) : Async Cells unit :=
  match a with
  | DropFiles files => handleDrop files
  | ChooseFiles files => handleFileInput files
  | RemoveFile => removeFile
  | SwitchMode upload =>
      set (setInputMode (if upload then "upload" else "text"))
  | TypeText text => set (setResumeText text)
  | SelectJob id => set (setSelectedJobId id)
  | Analyze => analyzeResume
  end.

(** The actions of a list done one after the other. *)
Definition session (actions : list Action) (w : World Cells) : World Cells :=
  fold_left (fun w a => final (act a) w) actions w.

(** A file the page accepts: of a valid kind and of at most 10 MB. *)
Definition acceptable (file : File) : Prop :=
  isValidFile file = true /\ size file <= 10 * 1024 * 1024.

(** A body worth sending: an acceptable file, or a text that is not
    blank. *)
Definition sendable (body : Payload) : Prop :=
  match body with
  | FormDataBody file _ => acceptable file
  | JsonBody text _ => Js.truthy (JsString.trim text) = true
  end.

(** The file kept by the page is acceptable, and so was every body sent. *)
Definition tidy (w : World Cells) : Prop :=
  match resumeFile (store w) with
  | Some file => acceptable file
  | None => True
  end
  /\ Forall (fun p => sendable (payload (snd p))) (awaited w).

End Page.

Arguments tidy {Analysis} parseInt w.
Arguments inputMode {Analysis} _.
Arguments resumeText {Analysis} _.
Arguments resumeFile {Analysis} _.
Arguments isDragging {Analysis} _.
Arguments selectedJobId {Analysis} _.
Arguments isAnalyzing {Analysis} _.
Arguments analysis {Analysis} _.
Arguments error {Analysis} _.
Arguments initial {Analysis}.
Arguments handleFileSelect {Analysis} file _.
Arguments handleDrop {Analysis} files _.
Arguments handleFileInput {Analysis} files _.
Arguments removeFile {Analysis} _.
Arguments canAnalyze {Analysis} c.
Arguments payload {Analysis} parseInt c.
Arguments analyzeResume {Analysis} aiAPI_analyzeResume parseInt
  response_error _.
Arguments act {Analysis} aiAPI_analyzeResume parseInt response_error a _.
Arguments session {Analysis} aiAPI_analyzeResume parseInt response_error
  actions w.

End ResumeAnalyzerPage.

(** ** Sequences of calls to the job feed store *)

Module History.
Import Axios Zustand JobsStore.

(** The calls of [ops] made one after the other. *)
Definition performs (ops : list Op) (w : World State) : World State :=
  fold_left (fun w op => perform op w) ops w.

(** A [fetchRecommended] the server answered. *)
Definition refetches (op : Op) : bool :=
  match op with
  | OpFetchRecommended (Fulfilled _) => true
  | _ => false
  end.

(** A [fetchSavedJobs] the server answered. *)
Definition resyncs (op : Op) : bool :=
  match op with
  | OpFetchSaved (Fulfilled _) => true
  | _ => false
  end.

End History.

(** ** Concrete servers, browsers and feeds used in the examples *)

Module Scenario.
Import Axios.

Definition storage_with_tokens : Browser :=
  {| localStorage := <["refresh_token" := "r0"]> (<["access_token" := "a0"]> ∅);
     location_href := "/discover" |}.

Definition empty_browser : Browser :=
  {| localStorage := ∅; location_href := "/" |}.

Definition get_jobs : Config :=
  {| url := "/jobs/recommended/"; Authorization := None; _retry := false |}.

Definition reply_401 : Reply :=
  Replied {| status := 401; data := ""; detail := None |}.

(** Every request is answered 401; the refresh is accepted. *)
Definition always_401 : ApiClient.Network :=
  {| ApiClient.respond := fun _ _ => reply_401;
     ApiClient.respond_refresh := fun _ _ => Some "a1" |}.

(** Every request is answered 401 and the refresh is rejected. *)
Definition refresh_rejected : ApiClient.Network :=
  {| ApiClient.respond := fun _ _ => reply_401;
     ApiClient.respond_refresh := fun _ _ => None |}.

Definition gateway_start : ApiClient.World :=
  {| ApiClient.browser := storage_with_tokens; ApiClient.log := [] |}.

(** A short name for each event. *)
Definition label (e : ApiClient.Event) : string :=
  match e with
  | ApiClient.Sent c _ => if _retry c then "replay" else "request"
  | ApiClient.RefreshPosted _ (Some _) => "refresh accepted"
  | ApiClient.RefreshPosted _ None => "refresh rejected"
  end.

Definition labels (o : option ApiClient.Outcome) : list string :=
  match o with
  | Some (_, w) => List.map label (ApiClient.log w)
  | None => []
  end.

Definition job1 : JobsStore.Job :=
  {| JobsStore.id := 1; JobsStore.title := "Backend intern";
     JobsStore.status := None |}.

Definition job2 : JobsStore.Job :=
  {| JobsStore.id := 2; JobsStore.title := "Data analyst";
     JobsStore.status := None |}.

Definition job3 : JobsStore.Job :=
  {| JobsStore.id := 3; JobsStore.title := "Designer";
     JobsStore.status := None |}.

(** The store before any call. *)
Definition fresh : Zustand.World JobsStore.State :=
  Zustand.boot JobsStore.initial empty_browser.

(** The store after a feed has been fetched. *)
Definition fetched (feed : list JobsStore.Job)
    : Zustand.World JobsStore.State :=
  JobsStore.perform
    (JobsStore.OpFetchRecommended (Fulfilled (JobsStore.Plain feed))) fresh.

(** A server that rejects every request of the job feed store. *)
Definition jobs_api_down : JobsStore.Api :=
  {| JobsStore.jobsAPI_recommended := Rejected network_error;
     JobsStore.savedJobsAPI_save := fun _ => Rejected network_error;
     JobsStore.savedJobsAPI_list := Rejected network_error |}.

(** The session store before any call, with users and profiles given by
    their names. *)
Definition anonymous : Zustand.World (AuthStore.State string string) :=
  Zustand.boot AuthStore.initial empty_browser.

(** A server that accepts the credentials and then rejects [GET /auth/me/]. *)
Definition me_rejected : AuthStore.Api string string :=
  {| AuthStore.authAPI_register := fun _ => Fulfilled tt;
     AuthStore.authAPI_login :=
       fun _ => Fulfilled {| AuthStore.access := "a1";
                             AuthStore.refresh := "r1" |};
     AuthStore.authAPI_getMe := Rejected network_error;
     AuthStore.profileAPI_get := Fulfilled "profile";
     AuthStore.profileAPI_update := fun data => Fulfilled data |}.

(** A server that rejects every request of the session store. *)
Definition registration_closed : AuthStore.Api string string :=
  {| AuthStore.authAPI_register := fun _ => Rejected network_error;
     AuthStore.authAPI_login := fun _ => Rejected network_error;
     AuthStore.authAPI_getMe := Rejected network_error;
     AuthStore.profileAPI_get := Rejected network_error;
     AuthStore.profileAPI_update := fun _ => Rejected network_error |}.

(** A server that accepts every request of the session store. *)
Definition all_accepted : AuthStore.Api string string :=
  {| AuthStore.authAPI_register := fun _ => Fulfilled tt;
     AuthStore.authAPI_login :=
       fun _ => Fulfilled {| AuthStore.access := "a1";
                             AuthStore.refresh := "r1" |};
     AuthStore.authAPI_getMe := Fulfilled "ada";
     AuthStore.profileAPI_get := Fulfilled "profile";
     AuthStore.profileAPI_update := fun data => Fulfilled data |}.

(** The discover page over a store, with the modal closed, and with the
    modal open on a job. *)
Definition browsing (w : Zustand.World JobsStore.State) : DiscoverPage.View :=
  {| DiscoverPage.stores := w;
     DiscoverPage.page :=
       {| DiscoverPage.showApplyModal := false;
          DiscoverPage.selectedJob := None;
          DiscoverPage.showMenu := false |} |}.

Definition applying (job : JobsStore.Job)
    (w : Zustand.World JobsStore.State) : DiscoverPage.View :=
  {| DiscoverPage.stores := w;
     DiscoverPage.page :=
       {| DiscoverPage.showApplyModal := true;
          DiscoverPage.selectedJob := Some job;
          DiscoverPage.showMenu := false |} |}.

(** A server that accepts every save. *)
Definition saves_accepted : JobsStore.Api :=
  JobsStore.answering_save (Fulfilled tt).

(** The session store at a reload with an access token kept in the
    browser. *)
Definition returning : Zustand.World (AuthStore.State string string) :=
  Zustand.boot AuthStore.initial storage_with_tokens.

(** The resume analyzer in text mode with a text pasted; the analysis is
    the text of the answer. *)
Definition pasting (text : string)
    : Zustand.World (ResumeAnalyzerPage.Cells string) :=
  Zustand.boot
    (ResumeAnalyzerPage.setResumeText string text
       (ResumeAnalyzerPage.setInputMode string "text"
          ResumeAnalyzerPage.initial))
    empty_browser.

Definition ok_200 : Response :=
  {| status := 200; data := "[]"; detail := None |}.

Definition error_500 : Response :=
  {| status := 500; data := "oops"; detail := None |}.

(** Every request is answered 200. *)
Definition always_200 : ApiClient.Network :=
  {| ApiClient.respond := fun _ _ => Replied ok_200;
     ApiClient.respond_refresh := fun _ _ => None |}.

(** Every request is answered 500. *)
Definition always_500 : ApiClient.Network :=
  {| ApiClient.respond := fun _ _ => Replied error_500;
     ApiClient.respond_refresh := fun _ _ => Some "a1" |}.

(** A browser with no credential stored. *)
Definition gateway_anonymous : ApiClient.World :=
  {| ApiClient.browser := empty_browser; ApiClient.log := [] |}.

(** The form of the wizard with ten skills selected. *)
Definition ten_skills : SignupWizard.FormData :=
  SignupWizard.write SignupWizard.Skills
    ["JavaScript"; "Python"; "React"; "Node.js"; "Java"; "C++";
     "Machine Learning"; "Data Science"; "UI/UX Design"; "Figma"]
    SignupWizard.emptyForm.

End Scenario.

(** ** Proof automation *)

(** Runs a store computation symbolically. *)
Ltac unfold_async :=
  unfold Zustand.final, Zustand.returned, Zustand.rendered, Zustand.called;
  cbv [mbind mret Zustand.async_bind Zustand.async_ret Zustand.bind
       Zustand.ret Zustand.set Zustand.get Zustand.await Zustand.try_catch
       Zustand.console_error Zustand.on_browser compose];
  cbn [fst snd Zustand.store Zustand.browser Zustand.awaited
       Zustand.console].

Ltac unfold_session :=
  unfold AuthStore.call, AuthStore.register, AuthStore.login,
    AuthStore.updateProfile, AuthStore.fetchUser;
  unfold_async.

Ltac unfold_contract :=
  unfold Zustand.error_on_failure, Zustand.loading_while_pending,
    Zustand.idle_when_resolved, Zustand.leaves_untouched;
  unfold JobsStore.call, JobsStore.fails, JobsStore.fetchRecommended,
    JobsStore.saveJob, JobsStore.applyToJob, JobsStore.fetchSavedJobs,
    AuthStore.call, AuthStore.fails, AuthStore.login_rejected,
    AuthStore.register, AuthStore.login, AuthStore.updateProfile,
    AuthStore.fetchUser;
  unfold_async.

(** Closes the goals left once the answers of the server are known;
    [suffix] is the lemma that reads the suffix a run appended to a list. *)
Ltac close_contract suffix :=
  cbn; rewrite <- ?app_assoc, ?suffix; cbn;
  repeat match goal with
         | |- _ /\ _ => split
         | |- Forall _ _ => constructor
         | |- _ -> _ => intro
         | |- _ = _ => reflexivity
         | H : false = true |- _ => discriminate H
         | |- Some _ <> None => discriminate
         end.

(** Two facts about an offset that cannot both hold. *)
Ltac offset_contradiction :=
  exfalso;
  match goal with
  | H1 : (?a < ?b)%Q, H2 : (?b <= ?a)%Q |- _ => exact (Qlt_not_le _ _ H1 H2)
  | H1 : (100 < ?a)%Q, H2 : (?a < -100)%Q |- _ =>
      apply (Qlt_irrefl 100); apply Qlt_trans with a; [exact H1|];
      apply Qlt_trans with (-100)%Q; [exact H2|reflexivity]
  end.

(** Runs a handler of a component symbolically. *)
Ltac unfold_components :=
  unfold React.lift, React.setCells, React.localStorage_getItem,
    React.navigate_to;
  unfold_session.

(** * Properties *)

Local Open Scope list_scope.

(** ** JavaScript helpers *)

Lemma or_else_truthy v d :
  Js.truthy d = true -> Js.truthy (Js.or_else v d) = true.
Proof.
  intros Hd. unfold Js.or_else. destruct v as [s|]; [|exact Hd].
  destruct (Js.truthy s) eqn:Hs; [exact Hs|exact Hd].
Qed.

Lemma index_None_iff {A : Type} (arr : list A) (i : Z) :
  Js.index arr i = None <-> i < 0 \/ Js.length arr <= i.
Proof.
  unfold Js.index, Js.length. destruct (Z.ltb_spec i 0) as [Hneg|Hpos].
  - split; [intros _; left; exact Hneg|reflexivity].
  - rewrite nth_error_None. split.
    + intros H. right. lia.
    + intros [H|H]; lia.
Qed.

Lemma gt_spec (a b : Q) : Js.gt a b = true <-> (b < a)%Q.
Proof.
  unfold Js.gt. rewrite negb_true_iff, <- not_true_iff_false, Qle_bool_iff.
  split; [apply Qnot_le_lt|apply Qlt_not_le].
Qed.

Lemma lt_spec (a b : Q) : Js.lt a b = true <-> (a < b)%Q.
Proof.
  unfold Js.lt. rewrite negb_true_iff, <- not_true_iff_false, Qle_bool_iff.
  split; [apply Qnot_le_lt|apply Qlt_not_le].
Qed.

(** ** The HTTP gateway *)

Section Gateway.
Import Axios ApiClient.
Variable net : Network.

Lemma request_interceptor_retry b c :
  _retry (request_interceptor b c) = _retry c.
Proof.
  unfold request_interceptor.
  destruct (getItem "access_token" b) as [token|]; [|reflexivity].
  destruct (Js.truthy token); reflexivity.
Qed.

(** A request that carries the flag is sent once and never refreshed. *)
Lemma api_flagged fuel c w :
  _retry c = true ->
  exists r reply,
    api (S fuel) net c w
    = Some (r, emit (Sent (request_interceptor (browser w) c) reply) w).
Proof.
  intros Hflag. cbn [api].
  pose proof (request_interceptor_retry (browser w) c) as Hkeep.
  rewrite Hflag in Hkeep.
  set (c' := request_interceptor (browser w) c) in *.
  destruct (respond net (log w) c') as [r|] eqn:Hreply.
  - destruct (validateStatus (status r)); [eauto|].
    unfold response_rejected. cbn [config]. rewrite Hkeep.
    rewrite andb_false_r. eauto.
  - unfold response_rejected. cbn [config]. rewrite Hkeep.
    rewrite andb_false_r. eauto.
Qed.

Lemma request_interceptor_url b c :
  url (request_interceptor b c) = url c.
Proof.
  unfold request_interceptor.
  destruct (getItem "access_token" b) as [token|]; [|reflexivity].
  destruct (Js.truthy token); reflexivity.
Qed.

(** The request interceptor on a request that already carries the stored
    credential. *)
Lemma request_interceptor_replay b access c :
  getItem "access_token" b = Some access ->
  request_interceptor b
    (with_Authorization ("Bearer " ++ access)%string (with_retry c))
  = {| url := url c;
       Authorization := Some ("Bearer " ++ access)%string;
       _retry := true |}.
Proof.
  intros Hstored. unfold request_interceptor. rewrite Hstored.
  destruct (Js.truthy access); reflexivity.
Qed.

(** The same, with what the caller gets. *)
Lemma api_flagged_exact fuel c w :
  _retry c = true ->
  let c' := request_interceptor (browser w) c in
  let reply := respond net (log w) c' in
  api (S fuel) net c w
  = Some (match reply with
          | Replied r =>
              if validateStatus (status r) then Fulfilled r
              else Rejected {| config := c'; response := Some r |}
          | NoReply => Rejected {| config := c'; response := None |}
          end,
          emit (Sent c' reply) w).
Proof.
  intros Hflag c' reply. subst reply. cbn [api].
  pose proof (request_interceptor_retry (browser w) c) as Hkeep.
  rewrite Hflag in Hkeep. fold c' in Hkeep |- *.
  destruct (respond net (log w) c') as [r|] eqn:Hreply.
  - destruct (validateStatus (status r)); [reflexivity|].
    unfold response_rejected. cbn [config]. rewrite Hkeep.
    rewrite andb_false_r. reflexivity.
  - unfold response_rejected. cbn [config]. rewrite Hkeep.
    rewrite andb_false_r. reflexivity.
Qed.

(** The handler of a rejected response, given a [replay] that sends the
    flagged request once. *)
Lemma response_rejected_budget fuel error w :
  exists r w' evs,
    response_rejected net (api (S fuel) net) error w = Some (r, w')
    /\ log w' = log w ++ evs
    /\ (count is_refresh evs <= 1)%nat
    /\ (count is_send evs <= 1)%nat
    /\ (count is_send evs = 1%nat -> count is_refresh evs = 1%nat)
    /\ Forall (fun e => is_send e = true -> is_replay e = true) evs
    /\ (refresh_failed evs = true ->
        getItem "access_token" (browser w') = None
        /\ getItem "refresh_token" (browser w') = None
        /\ location_href (browser w') = "/login").
Proof.
  unfold response_rejected.
  destruct (unauthorized error && negb (_retry (config error))).
  2:{ exists (Rejected error), w, []. rewrite app_nil_r.
      repeat split; cbn; try lia; try discriminate; constructor. }
  destruct (getItem "refresh_token" (browser w)) as [refreshToken|].
  2:{ eexists _, w, []. rewrite app_nil_r.
      repeat split; cbn; try lia; try discriminate; constructor. }
  destruct (Js.truthy refreshToken).
  2:{ eexists _, w, []. rewrite app_nil_r.
      repeat split; cbn; try lia; try discriminate; constructor. }
  destruct (respond_refresh net (log w) refreshToken) as [access|] eqn:Hans.
  - match goal with
    | |- context [api (S fuel) net ?c ?w0] =>
        destruct (api_flagged fuel c w0 eq_refl) as (r & reply & Hrun);
        rewrite Hrun; exists r; eexists;
        exists [RefreshPosted refreshToken (Some access);
                Sent (request_interceptor (browser w0) c) reply]
    end.
    split; [reflexivity|]. split.
    { cbn. rewrite <- app_assoc. reflexivity. }
    unfold count, refresh_failed. cbn.
    repeat split; try lia; try discriminate.
    repeat constructor; [discriminate|].
    intros _. cbn. rewrite request_interceptor_retry. reflexivity.
  - eexists _, _, [RefreshPosted refreshToken None].
    split; [reflexivity|]. split; [reflexivity|].
    unfold count, refresh_failed, getItem. cbn.
    repeat split; try lia; try discriminate.
    + repeat constructor. discriminate.
    + rewrite lookup_delete_ne by discriminate. apply lookup_delete_eq.
    + apply lookup_delete_eq.
Qed.

End Gateway.

(** C2.  A request sent through the gateway leaves the browser at most twice:
    once as issued and, after a refresh, at most once more as a replay that
    carries the retry flag, whatever the replay is answered (a second 401
    included).  At most one refresh is posted.  When the refresh is rejected
    both stored credentials are removed and the browser is sent to
    [/login]. *)
Theorem gateway_retry_budget (net : ApiClient.Network) (fuel : nat)
    (c : Axios.Config) (w : ApiClient.World) :
  (2 <= fuel)%nat ->
  exists r w' reply rest,
    ApiClient.api fuel net c w = Some (r, w')
    /\ ApiClient.log w'
       = ApiClient.log w
         ++ ApiClient.Sent
              (ApiClient.request_interceptor (ApiClient.browser w) c) reply
            :: rest
    /\ (ApiClient.count ApiClient.is_refresh rest <= 1)%nat
    /\ (ApiClient.count ApiClient.is_send rest <= 1)%nat
    /\ (ApiClient.count ApiClient.is_send rest = 1%nat ->
        ApiClient.count ApiClient.is_refresh rest = 1%nat)
    /\ Forall (fun e => ApiClient.is_send e = true ->
                         ApiClient.is_replay e = true) rest
    /\ (ApiClient.refresh_failed rest = true ->
        getItem "access_token" (ApiClient.browser w') = None
        /\ getItem "refresh_token" (ApiClient.browser w') = None
        /\ location_href (ApiClient.browser w') = "/login").
Proof.
  intros Hfuel.
  destruct fuel as [|[|fuel]]; [lia|lia|clear Hfuel].
  cbn [ApiClient.api].
  set (c' := ApiClient.request_interceptor (ApiClient.browser w) c).
  set (reply := ApiClient.respond net (ApiClient.log w) c').
  assert (Hrej : forall error,
    exists r w' rest,
      ApiClient.response_rejected net (ApiClient.api (S fuel) net) error
        (ApiClient.emit (ApiClient.Sent c' reply) w) = Some (r, w')
      /\ ApiClient.log w'
         = ApiClient.log w ++ ApiClient.Sent c' reply :: rest
      /\ (ApiClient.count ApiClient.is_refresh rest <= 1)%nat
      /\ (ApiClient.count ApiClient.is_send rest <= 1)%nat
      /\ (ApiClient.count ApiClient.is_send rest = 1%nat ->
          ApiClient.count ApiClient.is_refresh rest = 1%nat)
      /\ Forall (fun e => ApiClient.is_send e = true ->
                           ApiClient.is_replay e = true) rest
      /\ (ApiClient.refresh_failed rest = true ->
          getItem "access_token" (ApiClient.browser w') = None
          /\ getItem "refresh_token" (ApiClient.browser w') = None
          /\ location_href (ApiClient.browser w') = "/login")).
  { intros error.
    destruct (response_rejected_budget net fuel error
                (ApiClient.emit (ApiClient.Sent c' reply) w))
      as (r & w' & evs & Hrun & Hlog & Hrest).
    exists r, w', evs. split; [exact Hrun|]. split; [|exact Hrest].
    rewrite Hlog. cbn. rewrite <- app_assoc. reflexivity. }
  destruct reply as [resp|] eqn:Hreply.
  - destruct (Axios.validateStatus (Axios.status resp)).
    + eexists _, _, (Axios.Replied resp), []. split; [reflexivity|].
      split; [reflexivity|]. unfold ApiClient.count. cbn.
      repeat split; try lia; try discriminate. constructor.
    + destruct (Hrej {| Axios.config := c'; Axios.response := Some resp |})
        as (r & w' & rest & H).
      exists r, w', (Axios.Replied resp), rest. exact H.
  - destruct (Hrej {| Axios.config := c'; Axios.response := None |})
      as (r & w' & rest & H).
    exists r, w', Axios.NoReply, rest. exact H.
Qed.

Lemma gateway_retry_budget_witness :
  (2 <= 2)%nat
  /\ exists r w',
       ApiClient.api 2 Scenario.always_401 Scenario.get_jobs
         Scenario.gateway_start = Some (r, w')
       /\ (List.length (ApiClient.log w') <= 3)%nat.
Proof.
  split; [lia|].
  destruct (gateway_retry_budget Scenario.always_401 2 Scenario.get_jobs
              Scenario.gateway_start (le_n 2))
    as (r & w' & reply & rest & Hrun & Hlog & Hrefresh & Hsend & _).
  exists r, w'. split; [exact Hrun|].
  rewrite Hlog. cbn [ApiClient.log Scenario.gateway_start app List.length].
  unfold ApiClient.count in Hrefresh, Hsend.
  assert (Hsplit : forall evs : list ApiClient.Event,
            List.length evs
            = (List.length (List.filter ApiClient.is_refresh evs)
               + List.length (List.filter ApiClient.is_send evs))%nat).
  { induction evs as [|[c r0|t a] evs IH]; cbn; [reflexivity|lia|lia]. }
  rewrite (Hsplit rest). lia.
Defined.

(** The replay of a request is itself answered 401: nothing more is sent. *)
Example replay_answered_401 :
  Scenario.labels
    (ApiClient.api 5 Scenario.always_401 Scenario.get_jobs
       Scenario.gateway_start)
  = ["request"; "refresh accepted"; "replay"].
Proof. vm_compute. reflexivity. Qed.

Example refresh_rejected_logs_out :
  Scenario.labels
    (ApiClient.api 5 Scenario.refresh_rejected Scenario.get_jobs
       Scenario.gateway_start)
  = ["request"; "refresh rejected"].
Proof. vm_compute. reflexivity. Qed.
(** X1.  What a first 401 sets off when a refresh credential is stored: exactly
    one refresh, then either the logout, or one replay of the same request
    (same [url], flagged, carrying the new credential) whose outcome is the
    outcome of the call. *)
Lemma gateway_refresh_on_401 (net : ApiClient.Network) (fuel : nat)
    (c : Axios.Config) (w : ApiClient.World) (r : Axios.Response)
    (refreshToken : string) :
  let c' := ApiClient.request_interceptor (ApiClient.browser w) c in
  let first := ApiClient.Sent c' (Axios.Replied r) in
  Axios._retry c = false ->
  ApiClient.respond net (ApiClient.log w) c' = Axios.Replied r ->
  Axios.status r = 401 ->
  getItem "refresh_token" (ApiClient.browser w) = Some refreshToken ->
  Js.truthy refreshToken = true ->
  exists res w',
    ApiClient.api (S (S fuel)) net c w = Some (res, w')
    /\ match ApiClient.respond_refresh net (ApiClient.log w ++ [first])
               refreshToken with
       | Some access =>
           let refreshed :=
             ApiClient.RefreshPosted refreshToken (Some access) in
           let replayed :=
             {| Axios.url := Axios.url c;
                Axios.Authorization := Some ("Bearer " ++ access)%string;
                Axios._retry := true |} in
           let reply :=
             ApiClient.respond net (ApiClient.log w ++ [first; refreshed])
               replayed in
           res = match reply with
                 | Axios.Replied answer =>
                     if Axios.validateStatus (Axios.status answer)
                     then Axios.Fulfilled answer
                     else Axios.Rejected
                            {| Axios.config := replayed;
                               Axios.response := Some answer |}
                 | Axios.NoReply =>
                     Axios.Rejected
                       {| Axios.config := replayed;
                          Axios.response := None |}
                 end
           /\ ApiClient.log w'
              = ApiClient.log w
                ++ [first; refreshed; ApiClient.Sent replayed reply]
           /\ getItem "access_token" (ApiClient.browser w') = Some access
           /\ getItem "refresh_token" (ApiClient.browser w')
              = Some refreshToken
           /\ location_href (ApiClient.browser w')
              = location_href (ApiClient.browser w)
       | None =>
           res = Axios.Rejected
                   {| Axios.config := ApiClient.with_retry c';
                      Axios.response := Some r |}
           /\ ApiClient.log w'
              = ApiClient.log w
                ++ [first; ApiClient.RefreshPosted refreshToken None]
           /\ getItem "access_token" (ApiClient.browser w') = None
           /\ getItem "refresh_token" (ApiClient.browser w') = None
           /\ location_href (ApiClient.browser w') = "/login"
       end.
Proof.
  intros c' first Hfresh Hreply Hstatus Htoken Htruthy. subst first.
  assert (Hvalid : Axios.validateStatus (Axios.status r) = false)
    by (rewrite Hstatus; reflexivity).
  assert (Hflag : Axios._retry c' = false)
    by (subst c'; rewrite request_interceptor_retry; exact Hfresh).
  assert (Hurl : Axios.url c' = Axios.url c)
    by (subst c'; apply request_interceptor_url).
  set (inner := S fuel).
  cbn [ApiClient.api]. fold c'. rewrite Hreply, Hvalid.
  unfold ApiClient.response_rejected, Axios.unauthorized.
  cbn [Axios.config Axios.response ApiClient.emit ApiClient.browser
       ApiClient.log].
  rewrite Hstatus, Hflag, Htoken, Htruthy.
  change ((401 =? 401) && negb false) with true. cbv iota.
  subst inner.
  destruct (ApiClient.respond_refresh net _ refreshToken) as [access|].
  - rewrite api_flagged_exact by reflexivity. cbv zeta.
    eexists _, _. split; [reflexivity|].
    rewrite request_interceptor_replay
      by (unfold getItem, setItem; cbn; apply lookup_insert_eq).
    rewrite Hurl.
    cbn [ApiClient.emit ApiClient.on_browser ApiClient.browser
         ApiClient.log].
    rewrite <- !app_assoc. cbn [app].
    split; [reflexivity|]. split; [reflexivity|].
    unfold getItem, setItem. cbn [localStorage location_href].
    split; [apply lookup_insert_eq|].
    split; [|reflexivity].
    rewrite lookup_insert_ne by discriminate. exact Htoken.
  - eexists _, _. split; [reflexivity|].
    cbn. unfold getItem. cbn. rewrite <- app_assoc.
    repeat split.
    + rewrite lookup_delete_ne by discriminate. apply lookup_delete_eq.
    + apply lookup_delete_eq.
Qed.

(** ** Running store computations *)

(** The suffix a run appended to a list. *)
Lemma skipn_length_app {A : Type} (l l' : list A) :
  skipn (List.length l) (l ++ l') = l'.
Proof. induction l as [|a l IH]; [reflexivity|exact IH]. Qed.

Lemma skipn_length_self {A : Type} (l : list A) :
  skipn (List.length l) l = [].
Proof. induction l as [|a l IH]; [reflexivity|exact IH]. Qed.

(** ** The job feed store *)

Section Feed.
Import Axios Zustand JobsStore.

(** C8.  [fetchRecommended] replaces the feed and puts the cursor back to 0
    when the server answers; when the call is rejected the feed and the
    cursor stay as they were and [error] holds a message. *)
Theorem fetchRecommended_outcome (api : Api) (w : World State) :
  let w' := final (fetchRecommended api) w in
  match jobsAPI_recommended api with
  | Fulfilled response =>
      jobs (store w') = results_or_data response
      /\ currentIndex (store w') = 0
      /\ isLoading (store w') = false
      /\ error (store w') = None
  | Rejected failure =>
      jobs (store w') = jobs (store w)
      /\ currentIndex (store w') = currentIndex (store w)
      /\ isLoading (store w') = false
      /\ exists message,
           error (store w') = Some message /\ Js.truthy message = true
  end.
Proof.
  unfold fetchRecommended. unfold_async.
  destruct (jobsAPI_recommended api) as [response|failure]; cbn.
  - repeat split.
  - repeat split. eexists. split; [reflexivity|].
    apply or_else_truthy. reflexivity.
Qed.

(** What each call does to the cursor and to the feed. *)
Lemma perform_cursor (op : Op) (w : World State) :
  cursor (perform op w)
  = match op with
    | OpSkip =>
        if cursor w <? feed_length w - 1 then cursor w + 1 else cursor w
    | OpSave _ (Fulfilled _) | OpApply _ (Fulfilled _) => cursor w + 1
    | OpFetchRecommended (Fulfilled _) => 0
    | _ => cursor w
    end.
Proof.
  unfold cursor, feed_length.
  destruct op as [[response|failure]| |job [[]|failure]|job [[]|failure]
                 |[response|failure]];
    cbn [perform]; unfold fetchRecommended, skipJob, saveJob, applyToJob,
      fetchSavedJobs; unfold_async; cbn; try reflexivity.
  destruct (currentIndex (store w) <? Js.length (jobs (store w)) - 1);
    reflexivity.
Qed.

Lemma perform_feed_length (op : Op) (w : World State) :
  feed_length (perform op w)
  = match op with
    | OpFetchRecommended (Fulfilled response) =>
        Js.length (results_or_data response)
    | _ => feed_length w
    end.
Proof.
  unfold feed_length.
  destruct op as [[response|failure]| |job [[]|failure]|job [[]|failure]
                 |[response|failure]];
    cbn [perform]; unfold fetchRecommended, skipJob, saveJob, applyToJob,
      fetchSavedJobs; unfold_async; cbn; try reflexivity.
  destruct (currentIndex (store w) <? Js.length (jobs (store w)) - 1);
    reflexivity.
Qed.

Lemma feed_length_nonneg (w : World State) : 0 <= feed_length w.
Proof. unfold feed_length, Js.length. lia. Qed.

Lemma reachable_cursor_nonneg (b : Browser) (w : World State) :
  reachable b w -> 0 <= cursor w.
Proof.
  induction 1 as [|op w Hw IH]; [reflexivity|].
  rewrite perform_cursor.
  destruct op as [[response|failure]| |job [[]|failure]|job [[]|failure]
                 |[response|failure]]; try lia.
  destruct (cursor w <? feed_length w - 1); lia.
Qed.

(** C3, as the store implements it.  The cursor is never negative.  [skipJob]
    moves it by one unless it stands on the last job or beyond, a save or an
    apply the server accepted moves it by one, every other call leaves it,
    and only a feed that was fetched puts it back to 0.  The bound
    [cursor <= length] is kept by every call except a save or an apply
    accepted while the cursor is already at the end. *)
Theorem cursor_discipline (b : Browser) (w : World State) (op : Op) :
  reachable b w ->
  let w' := perform op w in
  0 <= cursor w
  /\ match op with
     | OpSkip =>
         cursor w'
         = (if cursor w <? feed_length w - 1 then cursor w + 1 else cursor w)
     | OpSave _ (Fulfilled _) | OpApply _ (Fulfilled _) =>
         cursor w' = cursor w + 1
     | OpFetchRecommended (Fulfilled _) => cursor w' = 0
     | _ => cursor w' = cursor w
     end
  /\ (cursor w' < cursor w ->
      cursor w' = 0
      /\ exists response, op = OpFetchRecommended (Fulfilled response))
  /\ (cursor w <= feed_length w ->
      cursor w' <= feed_length w'
      \/ (cursor w = feed_length w
          /\ exists job, op = OpSave job (Fulfilled tt)
                         \/ op = OpApply job (Fulfilled tt))).
Proof.
  intros Hreach w'. subst w'.
  pose proof (reachable_cursor_nonneg b w Hreach) as Hnonneg.
  pose proof (feed_length_nonneg w) as Hlen.
  split; [exact Hnonneg|].
  rewrite perform_cursor, perform_feed_length.
  destruct op as [[response|failure]| |job [[]|failure]|job [[]|failure]
                 |[response|failure]].
  all: split; [reflexivity|].
  all: try (split; [lia|intros; left; lia]).
  - split; [eauto|]. intros _. left. unfold Js.length. lia.
  - destruct (Z.ltb_spec (cursor w) (feed_length w - 1));
      (split; [lia|intros; left; lia]).
  - split; [lia|]. intros Hle.
    destruct (Z.eq_dec (cursor w) (feed_length w)) as [Heq|Hne].
    + right. split; [exact Heq|]. exists job. left. reflexivity.
    + left. lia.
  - split; [lia|]. intros Hle.
    destruct (Z.eq_dec (cursor w) (feed_length w)) as [Heq|Hne].
    + right. split; [exact Heq|]. exists job. right. reflexivity.
    + left. lia.
Qed.

Lemma cursor_discipline_witness :
  reachable Scenario.empty_browser (Scenario.fetched [Scenario.job1])
  /\ cursor (perform OpSkip (Scenario.fetched [Scenario.job1])) = 0
  /\ cursor
       (perform (OpSave Scenario.job1 (Fulfilled tt))
          (Scenario.fetched [Scenario.job1])) = 1.
Proof.
  assert (Hreach : reachable Scenario.empty_browser
                     (Scenario.fetched [Scenario.job1])).
  { apply reachable_perform, reachable_boot. }
  split; [exact Hreach|]. split.
  - destruct (cursor_discipline Scenario.empty_browser
                (Scenario.fetched [Scenario.job1]) OpSkip Hreach)
      as (_ & Hskip & _).
    rewrite Hskip. reflexivity.
  - destruct (cursor_discipline Scenario.empty_browser
                (Scenario.fetched [Scenario.job1])
                (OpSave Scenario.job1 (Fulfilled tt)) Hreach)
      as (_ & Hsave & _).
    rewrite Hsave. reflexivity.
Defined.

(** C3 as the specification words it fails twice: two saves accepted on a
    feed of one job leave the cursor at 2, past the length 1; and a skip on
    the last job does not move the cursor. *)
Lemma cursor_invariant_fails :
  let saved_twice :=
    perform (OpSave Scenario.job1 (Fulfilled tt))
      (perform (OpSave Scenario.job1 (Fulfilled tt))
         (Scenario.fetched [Scenario.job1])) in
  (reachable Scenario.empty_browser saved_twice
   /\ ~ (0 <= cursor saved_twice <= feed_length saved_twice))
  /\ (reachable Scenario.empty_browser (Scenario.fetched [Scenario.job1])
      /\ cursor (perform OpSkip (Scenario.fetched [Scenario.job1]))
         <> cursor (Scenario.fetched [Scenario.job1]) + 1).
Proof.
  cbv zeta. split; split.
  - do 3 apply reachable_perform. apply reachable_boot.
  - vm_compute. intros [_ H]. apply H. reflexivity.
  - apply reachable_perform, reachable_boot.
  - vm_compute. discriminate.
Qed.

(** One [skipJob()]. *)
Lemma skip_once (w : World State) :
  cursor (final skipJob w)
  = (if cursor w <? feed_length w - 1 then cursor w + 1 else cursor w)
  /\ feed_length (final skipJob w) = feed_length w.
Proof.
  change (final skipJob w) with (perform OpSkip w).
  rewrite perform_cursor, perform_feed_length. split; reflexivity.
Qed.

Lemma skips_succ (n : nat) (w : World State) :
  skips (S n) w = final skipJob (skips n w).
Proof. reflexivity. Qed.

(** [k] skips from the top of a feed stop at its last job, and do nothing
    when it has none. *)
Lemma skips_cursor (w : World State) (k : nat) :
  cursor w = 0 ->
  cursor (skips k w) = Z.min (Z.of_nat k) (Z.max 0 (feed_length w - 1))
  /\ feed_length (skips k w) = feed_length w.
Proof.
  intros Hstart. induction k as [|k [IHc IHl]].
  - cbn. rewrite Hstart. split; [lia|reflexivity].
  - rewrite skips_succ.
    destruct (skip_once (skips k w)) as [Hc Hl].
    rewrite Hc, Hl, IHc, IHl. split; [|reflexivity].
    destruct (Z.ltb_spec
                (Z.min (Z.of_nat k) (Z.max 0 (feed_length w - 1)))
                (feed_length w - 1)); lia.
Qed.

(** C4, with the empty feed set apart.  After [N] skips from the top of a
    feed of [N] jobs the cursor is [N - 1] when [N >= 1] and 0 when
    [N = 0]; when [N >= 1] no number of skips takes it to [N]. *)
Theorem skip_clamped (w : World State) (N : nat) :
  cursor w = 0 ->
  feed_length w = Z.of_nat N ->
  cursor (skips N w) = Z.max 0 (Z.of_nat N - 1)
  /\ ((1 <= N)%nat ->
      cursor (skips N w) = Z.of_nat N - 1
      /\ forall k : nat, cursor (skips k w) < Z.of_nat N)
  /\ (N = 0%nat -> forall k : nat, cursor (skips k w) = 0).
Proof.
  intros Hstart Hlen.
  assert (Hk : forall k : nat,
            cursor (skips k w)
            = Z.min (Z.of_nat k) (Z.max 0 (Z.of_nat N - 1))).
  { intros k. destruct (skips_cursor w k Hstart) as [Hc _].
    rewrite Hc, Hlen. reflexivity. }
  split; [rewrite Hk; lia|]. split.
  - intros Hpos. split; [rewrite Hk; lia|]. intros k. rewrite Hk. lia.
  - intros Hzero k. rewrite Hk. lia.
Qed.

Lemma skip_clamped_witness :
  let w :=
    Scenario.fetched [Scenario.job1; Scenario.job2; Scenario.job3] in
  cursor w = 0
  /\ feed_length w = 3
  /\ cursor (skips 3 w) = 2
  /\ forall k : nat, cursor (skips k w) < 3.
Proof.
  cbv zeta. split; [reflexivity|]. split; [reflexivity|].
  destruct (skip_clamped
              (Scenario.fetched
                 [Scenario.job1; Scenario.job2; Scenario.job3])
              3 eq_refl eq_refl)
    as (_ & Hpos & _).
  destruct (Hpos (le_S _ _ (le_S _ _ (le_n 1)))) as [Hlast Hbelow].
  split; [exact Hlast|exact Hbelow].
Defined.

(** C4 fails on the empty feed: there [N = 0], no skip is made, and the
    cursor is 0, which is [N] and not [N - 1]. *)
Lemma skip_empty_feed :
  feed_length Scenario.fresh = 0
  /\ cursor (skips 0 Scenario.fresh) <> feed_length Scenario.fresh - 1
  /\ cursor (skips 0 Scenario.fresh) = feed_length Scenario.fresh.
Proof. vm_compute. repeat split. discriminate. Qed.

(** C6.  When the server rejects the persistence call, [saveJob] and
    [applyToJob] leave the store as it was: nothing is appended and the
    cursor does not move.  [applyToJob] returns [false]; [saveJob] returns
    nothing and only writes to the console. *)
Theorem persistence_failure (api : Api) (job : Job) (w : World State)
    (failure : AxiosError) :
  (forall request, savedJobsAPI_save api request = Rejected failure) ->
  (store (final (saveJob api job) w) = store w
   /\ returned (saveJob api job) w = Normal tt
   /\ console (final (saveJob api job) w)
      = console w ++ ["Failed to save job:"])
  /\ (store (final (applyToJob api job) w) = store w
      /\ returned (applyToJob api job) w = Normal false
      /\ console (final (applyToJob api job) w)
         = console w ++ ["Failed to apply:"]).
Proof.
  intros Hrejected. unfold saveJob, applyToJob. unfold_async.
  rewrite !Hrejected. cbn. repeat split.
Qed.

Lemma persistence_failure_witness :
  cursor
    (final (saveJob (answering_save (Rejected network_error)) Scenario.job1)
       (Scenario.fetched [Scenario.job1])) = 0
  /\ returned
       (applyToJob (answering_save (Rejected network_error)) Scenario.job1)
       (Scenario.fetched [Scenario.job1]) = Normal false.
Proof.
  destruct (persistence_failure (answering_save (Rejected network_error))
              Scenario.job1 (Scenario.fetched [Scenario.job1]) network_error
              (fun _ => eq_refl))
    as [(Hsave & _) (_ & Happly & _)].
  split; [|exact Happly].
  unfold cursor. rewrite Hsave. reflexivity.
Defined.

(** The call the server accepts appends the job and moves the cursor. *)
Lemma persistence_success (api : Api) (job : Job) (w : World State) :
  (forall request, savedJobsAPI_save api request = Fulfilled tt) ->
  (savedJobs (store (final (saveJob api job) w))
   = savedJobs (store w) ++ [job]
   /\ cursor (final (saveJob api job) w) = cursor w + 1)
  /\ (appliedJobs (store (final (applyToJob api job) w))
      = appliedJobs (store w) ++ [job]
      /\ cursor (final (applyToJob api job) w) = cursor w + 1
      /\ returned (applyToJob api job) w = Normal true).
Proof.
  intros Haccepted. unfold saveJob, applyToJob, cursor. unfold_async.
  rewrite !Haccepted. cbn. repeat split.
Qed.

(** C7.  A [fetchSavedJobs] the server answers replaces the two collections
    by the entries of the answer tagged [saved] and those tagged [applied],
    in the order of the answer. *)
Theorem fetchSavedJobs_partition (api : Api) (w : World State)
    (response : list Job) :
  savedJobsAPI_list api = Fulfilled response ->
  let w' := final (fetchSavedJobs api) w in
  savedJobs (store w') = List.filter (status_is "saved") response
  /\ appliedJobs (store w') = List.filter (status_is "applied") response
  /\ (forall j, In j (savedJobs (store w'))
                <-> In j response /\ status j = Some "saved")
  /\ (forall j, In j (appliedJobs (store w'))
                <-> In j response /\ status j = Some "applied").
Proof.
  intros Hanswer w'. subst w'. unfold fetchSavedJobs. unfold_async.
  rewrite Hanswer. cbn.
  assert (Htag : forall tag j, status_is tag j = true <-> status j = Some tag).
  { intros tag j. unfold status_is. destruct (status j) as [s|].
    - rewrite String.eqb_eq. split; congruence.
    - split; discriminate. }
  split; [reflexivity|]. split; [reflexivity|].
  split; intros j; rewrite filter_In, Htag; reflexivity.
Qed.

Lemma fetchSavedJobs_partition_witness :
  let response :=
    [ {| id := 7; title := "a"; status := Some "saved" |};
      {| id := 8; title := "b"; status := Some "applied" |};
      {| id := 9; title := "c"; status := Some "applied" |} ] in
  let w' :=
    final (fetchSavedJobs (answering_list (Fulfilled response)))
      Scenario.fresh in
  List.length (savedJobs (store w')) = 1%nat
  /\ List.length (appliedJobs (store w')) = 2%nat.
Proof.
  cbv zeta.
  destruct (fetchSavedJobs_partition
              (answering_list
                 (Fulfilled
                    [ {| id := 7; title := "a"; status := Some "saved" |};
                      {| id := 8; title := "b"; status := Some "applied" |};
                      {| id := 9; title := "c"; status := Some "applied" |} ]))
              Scenario.fresh _ eq_refl)
    as (Hsaved & Happlied & _).
  rewrite Hsaved, Happlied. split; reflexivity.
Defined.

(** [getCurrentJob] returns no job on an empty feed or an exhausted
    cursor, and [hasMoreJobs] is [cursor < length]. *)
Lemma getCurrentJob_exhausted (w : World State) :
  feed_length w <= cursor w -> returned getCurrentJob w = Normal None.
Proof.
  intros Hend. unfold getCurrentJob. unfold_async.
  assert (Hnone : Js.index (jobs (store w)) (currentIndex (store w)) = None).
  { apply index_None_iff. right. exact Hend. }
  rewrite Hnone. reflexivity.
Qed.

Lemma hasMoreJobs_cursor (w : World State) :
  returned hasMoreJobs w = Normal (cursor w <? feed_length w).
Proof. reflexivity. Qed.

End Feed.

(** ** The session store *)

Section SessionProperties.
Import Axios Zustand AuthStore.
Context {User Profile : Type}.
Variable api : Api User Profile.

(** [login] when the server rejects the credentials: it returns [false],
    records a message, and does not fetch the user. *)
Lemma login_rejected_outcome (email password : string)
    (w : World (State User Profile)) (failure : AxiosError) :
  authAPI_login api {| username := email; cred_password := password |}
  = Rejected failure ->
  let w' := final (login api email password) w in
  returned (login api email password) w = Normal false
  /\ (exists message,
        error (store w') = Some message /\ Js.truthy message = true)
  /\ isLoading (store w') = false
  /\ isAuthenticated (store w') = isAuthenticated (store w)
  /\ ~ In "/auth/me/ /profile/" (called (login api email password) w).
Proof.
  intros Hrejected w'. subst w'. unfold called. unfold_session.
  rewrite Hrejected. cbn. rewrite skipn_length_app.
  split; [reflexivity|]. split.
  { eexists. split; [reflexivity|]. apply or_else_truthy. reflexivity. }
  split; [reflexivity|]. split; [reflexivity|].
  cbn. intros [H|[]]. discriminate H.
Qed.

(** [login] when the server accepts the credentials and answers both
    [/auth/me/] and [/profile/]. *)
Lemma login_fulfilled_outcome (email password : string)
    (w : World (State User Profile)) (tokens : Tokens) (u : User)
    (p : Profile) :
  authAPI_login api {| username := email; cred_password := password |}
  = Fulfilled tokens ->
  authAPI_getMe api = Fulfilled u ->
  profileAPI_get api = Fulfilled p ->
  let w' := final (login api email password) w in
  returned (login api email password) w = Normal true
  /\ isAuthenticated (store w') = true
  /\ user (store w') = Some u
  /\ profile (store w') = Some p
  /\ isLoading (store w') = false
  /\ error (store w') = None.
Proof.
  intros Hlogin Hme Hprofile w'. subst w'. unfold_session.
  rewrite Hlogin. cbn. rewrite Hme, Hprofile. cbn. repeat split.
Qed.

(** C1, at the input on which the code departs from it.  When the server
    accepts the credentials and then rejects the fetch of the user or of the
    profile, [login] still returns [true] and leaves [isAuthenticated] true
    with no [user] and no [error]: the handler of [fetchUser] has consumed
    the failure, and [login] overwrites the flag [fetchUser] had cleared. *)
Theorem login_ignores_fetch_failure (email password : string)
    (w : World (State User Profile)) (tokens : Tokens)
    (failure : AxiosError) :
  authAPI_login api {| username := email; cred_password := password |}
  = Fulfilled tokens ->
  Promise_all (authAPI_getMe api) (profileAPI_get api) = Rejected failure ->
  let w' := final (login api email password) w in
  returned (login api email password) w = Normal true
  /\ isAuthenticated (store w') = true
  /\ user (store w') = None
  /\ error (store w') = None
  /\ isLoading (store w') = false
  /\ getItem "access_token" (browser w') = Some (access tokens)
  /\ getItem "refresh_token" (browser w') = Some (refresh tokens).
Proof.
  intros Hlogin Hfetch w'. subst w'. unfold_session.
  rewrite Hlogin. cbn. rewrite Hfetch. cbn. unfold getItem, setItem. cbn.
  repeat split.
  - rewrite lookup_insert_ne by discriminate. apply lookup_insert_eq.
  - apply lookup_insert_eq.
Qed.

(** [fetchUser] on its own does collapse the session when the fetch fails. *)
Lemma fetchUser_rejected_outcome (w : World (State User Profile))
    (failure : AxiosError) :
  Promise_all (authAPI_getMe api) (profileAPI_get api) = Rejected failure ->
  let w' := final (fetchUser api) w in
  isAuthenticated (store w') = false
  /\ user (store w') = None
  /\ profile (store w') = None
  /\ error (store w') = error (store w)
  /\ isLoading (store w') = isLoading (store w).
Proof.
  intros Hfetch w'. subst w'. unfold_session. rewrite Hfetch. cbn.
  repeat split.
Qed.

(** [logout] removes both credentials and the session fields. *)
Lemma logout_clears (w : World (State User Profile)) :
  let w' := final logout w in
  getItem "access_token" (browser w') = None
  /\ getItem "refresh_token" (browser w') = None
  /\ user (store w') = None
  /\ profile (store w') = None
  /\ isAuthenticated (store w') = false
  /\ error (store w') = None.
Proof.
  cbv zeta. unfold logout. unfold_async. unfold getItem, removeItem. cbn.
  repeat split.
  - rewrite lookup_delete_ne by discriminate. apply lookup_delete_eq.
  - apply lookup_delete_eq.
Qed.

End SessionProperties.

Lemma login_ignores_fetch_failure_witness :
  let w' :=
    Zustand.final (AuthStore.login Scenario.me_rejected "a@b.com" "x")
      Scenario.anonymous in
  Zustand.returned (AuthStore.login Scenario.me_rejected "a@b.com" "x")
    Scenario.anonymous = Zustand.Normal true
  /\ AuthStore.isAuthenticated (Zustand.store w') = true
  /\ AuthStore.user (Zustand.store w') = None
  /\ AuthStore.error (Zustand.store w') = None.
Proof.
  cbv zeta.
  destruct (login_ignores_fetch_failure Scenario.me_rejected "a@b.com" "x"
              Scenario.anonymous _ _ eq_refl eq_refl)
    as (Hret & Hauth & Huser & Herror & _).
  repeat split; assumption.
Defined.

(** ** The side effect contract of the two stores *)

Section Contract.
Import Axios Zustand.
Context {User Profile : Type}.

(** C9, as the two stores implement it.  [fetchRecommended], [login],
    [register] and [updateProfile] keep [isLoading] true until their work
    resolves (it is true in the store rendered at every [await] and false
    in the store they leave), and leave an error in the store when a
    request they await is rejected.  [saveJob], [applyToJob],
    [fetchSavedJobs] and [fetchUser] write neither [error] nor [isLoading],
    whether they fail or not. *)
Theorem side_effect_contract
    (jobsApi : JobsStore.Api) (jm : JobsStore.Mutator)
    (jw : World JobsStore.State)
    (authApi : AuthStore.Api User Profile) (am : AuthStore.Mutator Profile)
    (aw : World (AuthStore.State User Profile)) :
  match jm with
  | JobsStore.FetchRecommended =>
      error_on_failure JobsStore.error (JobsStore.call jobsApi jm)
        (JobsStore.fails jobsApi jm) jw
      /\ loading_while_pending JobsStore.isLoading
           (JobsStore.call jobsApi jm) jw
      /\ idle_when_resolved JobsStore.isLoading
           (JobsStore.call jobsApi jm) jw
  | _ =>
      leaves_untouched JobsStore.error (JobsStore.call jobsApi jm) jw
      /\ leaves_untouched JobsStore.isLoading (JobsStore.call jobsApi jm) jw
  end
  /\ match am with
     | AuthStore.FetchUser =>
         leaves_untouched AuthStore.error (AuthStore.call authApi am) aw
         /\ leaves_untouched AuthStore.isLoading
              (AuthStore.call authApi am) aw
     | _ =>
         error_on_failure AuthStore.error (AuthStore.call authApi am)
           (AuthStore.fails authApi am) aw
         /\ loading_while_pending AuthStore.isLoading
              (AuthStore.call authApi am) aw
         /\ idle_when_resolved AuthStore.isLoading
              (AuthStore.call authApi am) aw
     end.
Proof.
  split.
  - destruct jm as [|job|job|]; unfold_contract.
    + destruct (JobsStore.jobsAPI_recommended jobsApi); close_contract (@skipn_length_app).
    + destruct (JobsStore.savedJobsAPI_save jobsApi _); close_contract (@skipn_length_app).
    + destruct (JobsStore.savedJobsAPI_save jobsApi _); close_contract (@skipn_length_app).
    + destruct (JobsStore.savedJobsAPI_list jobsApi); close_contract (@skipn_length_app).
  - destruct am as [email password|userData| |data]; unfold_contract.
    + destruct (AuthStore.authAPI_login authApi _); cbn;
        [destruct (AuthStore.authAPI_getMe authApi),
                  (AuthStore.profileAPI_get authApi)|];
        close_contract (@skipn_length_app).
    + destruct (AuthStore.authAPI_register authApi _); cbn;
        [destruct (AuthStore.authAPI_login authApi _); cbn;
         [destruct (AuthStore.authAPI_getMe authApi),
                   (AuthStore.profileAPI_get authApi)|]|];
        close_contract (@skipn_length_app).
    + destruct (AuthStore.authAPI_getMe authApi),
               (AuthStore.profileAPI_get authApi);
        close_contract (@skipn_length_app).
    + destruct (AuthStore.profileAPI_update authApi data); close_contract (@skipn_length_app).
Qed.

End Contract.

(** C9 as the specification words it fails on [saveJob] and on [fetchUser]:
    a rejected request leaves [error] empty, and the store rendered while
    the request is pending is not loading. *)
Lemma contract_fails_on_saveJob_and_fetchUser :
  (JobsStore.fails Scenario.jobs_api_down (JobsStore.SaveJob Scenario.job1)
   = true
   /\ ~ Zustand.error_on_failure JobsStore.error
          (JobsStore.call Scenario.jobs_api_down
             (JobsStore.SaveJob Scenario.job1))
          (JobsStore.fails Scenario.jobs_api_down
             (JobsStore.SaveJob Scenario.job1))
          Scenario.fresh
   /\ ~ Zustand.loading_while_pending JobsStore.isLoading
          (JobsStore.call Scenario.jobs_api_down
             (JobsStore.SaveJob Scenario.job1))
          Scenario.fresh)
  /\ (AuthStore.fails Scenario.me_rejected AuthStore.FetchUser = true
      /\ ~ Zustand.error_on_failure AuthStore.error
             (AuthStore.call Scenario.me_rejected AuthStore.FetchUser)
             (AuthStore.fails Scenario.me_rejected AuthStore.FetchUser)
             Scenario.anonymous
      /\ ~ Zustand.loading_while_pending AuthStore.isLoading
             (AuthStore.call Scenario.me_rejected AuthStore.FetchUser)
             Scenario.anonymous).
Proof.
  unfold Zustand.error_on_failure, Zustand.loading_while_pending.
  repeat split.
  - intros H. apply H; reflexivity.
  - intros H. vm_compute in H. inversion H as [|s l Hhead Htail].
    discriminate Hhead.
  - intros H. apply H; reflexivity.
  - intros H. vm_compute in H. inversion H as [|s l Hhead Htail].
    discriminate Hhead.
Qed.

(** ** The swipe card and the discover page *)

Section Swipe.
Import SwipeCard.

(** C5.  A drag released at offset [(x, y)] commits [apply] when
    [x > 100], [skip] when [x < -100], otherwise [save] when [y < -100],
    and otherwise nothing.  The horizontal tests come first, so an offset
    beyond both thresholds commits the horizontal decision, and no release
    commits more than one. *)
Theorem handleDragEnd_decision (info : PanInfo) :
  let dx := x (offset info) in
  let dy := y (offset info) in
  let fired := decisions (handleDragEnd info) in
  ((100 < dx)%Q -> fired = ["apply"])
  /\ ((dx < -100)%Q -> fired = ["skip"])
  /\ ((-100 <= dx)%Q -> (dx <= 100)%Q -> (dy < -100)%Q -> fired = ["save"])
  /\ ((-100 <= dx)%Q -> (dx <= 100)%Q -> (-100 <= dy)%Q ->
      handleDragEnd info = [])
  /\ (List.length fired <= 1)%nat.
Proof.
  cbv zeta. unfold handleDragEnd.
  change (Qopp 100) with (-100)%Q.
  destruct (Js.gt (x (offset info)) 100) eqn:Hgt.
  { apply gt_spec in Hgt. cbn.
    repeat split; intros; try reflexivity; offset_contradiction. }
  assert (Hle : (x (offset info) <= 100)%Q).
  { apply Qnot_lt_le. intros H. apply gt_spec in H. congruence. }
  destruct (Js.lt (x (offset info)) (-100)) eqn:Hlt.
  { apply lt_spec in Hlt. cbn.
    repeat split; intros; try reflexivity; offset_contradiction. }
  assert (Hge : (-100 <= x (offset info))%Q).
  { apply Qnot_lt_le. intros H. apply lt_spec in H. congruence. }
  destruct (Js.lt (y (offset info)) (-100)) eqn:Hup.
  { apply lt_spec in Hup. cbn.
    repeat split; intros; try reflexivity; offset_contradiction. }
  assert (Hdown : (-100 <= y (offset info))%Q).
  { apply Qnot_lt_le. intros H. apply lt_spec in H. congruence. }
  cbn. repeat split; intros; try reflexivity; try lia; offset_contradiction.
Qed.

(** The releases the specification lists. *)
Example drag_right :
  handleDragEnd {| offset := {| x := 150; y := 0 |} |}
  = [SetExitX 300; OnSwipe "apply"].
Proof. reflexivity. Qed.

Example drag_left :
  handleDragEnd {| offset := {| x := -150; y := 0 |} |}
  = [SetExitX (-300); OnSwipe "skip"].
Proof. reflexivity. Qed.

Example drag_short :
  handleDragEnd {| offset := {| x := 50; y := 0 |} |} = [].
Proof. reflexivity. Qed.

Example drag_up :
  handleDragEnd {| offset := {| x := 0; y := -150 |} |} = [OnSwipe "save"].
Proof. reflexivity. Qed.

Example drag_right_and_up :
  handleDragEnd {| offset := {| x := 150; y := -150 |} |}
  = [SetExitX 300; OnSwipe "apply"].
Proof. reflexivity. Qed.

(** At the thresholds themselves nothing is committed. *)
Example drag_at_threshold :
  handleDragEnd {| offset := {| x := 100; y := -100 |} |} = []
  /\ handleDragEnd {| offset := {| x := -100; y := 0 |} |} = [].
Proof. split; reflexivity. Qed.

End Swipe.

Section Discover.
Import Zustand JobsStore DiscoverPage.
Variable api : Api.

Lemma handleSwipe_without_job (action : string) (v : View) :
  currentJob v = None -> handleSwipe api action v = v.
Proof. intros Hnone. unfold handleSwipe. rewrite Hnone. reflexivity. Qed.

(** C10.  When the cursor is at or past the end of the feed there is no
    current job, and [handleSwipe] returns at once for every action: the
    store, the requests made, the console and the modal are as before,
    whether the action comes from a button or from a released drag. *)
Theorem handleSwipe_exhausted (action : string)
    (info : SwipeCard.PanInfo) (v : View) :
  feed_length (stores v) <= cursor (stores v) ->
  handleSwipe api action v = v
  /\ onSkip api v = v
  /\ onSave api v = v
  /\ onApply api v = v
  /\ dragEnd api info v = v.
Proof.
  intros Hend.
  assert (Hnone : currentJob v = None).
  { unfold currentJob. apply index_None_iff. right. exact Hend. }
  unfold onSkip, onSave, onApply.
  rewrite !handleSwipe_without_job by exact Hnone.
  repeat split.
  unfold dragEnd, SwipeCard.handleDragEnd.
  destruct (Js.gt _ _); [|destruct (Js.lt _ _); [|destruct (Js.lt _ _)]];
    cbn [fold_left]; rewrite ?handleSwipe_without_job by exact Hnone;
    reflexivity.
Qed.

End Discover.

Lemma handleSwipe_exhausted_witness :
  let v :=
    {| DiscoverPage.stores := Scenario.fresh;
       DiscoverPage.page :=
         {| DiscoverPage.showApplyModal := false;
            DiscoverPage.selectedJob := None;
            DiscoverPage.showMenu := false |} |} in
  JobsStore.feed_length (DiscoverPage.stores v)
  <= JobsStore.cursor (DiscoverPage.stores v)
  /\ DiscoverPage.handleSwipe Scenario.jobs_api_down "save" v = v.
Proof.
  cbv zeta. split; [vm_compute; discriminate|].
  refine (proj1 (handleSwipe_exhausted Scenario.jobs_api_down "save"
                   {| SwipeCard.offset :=
                        {| SwipeCard.x := 150; SwipeCard.y := 0 |} |}
                   _ _)).
  vm_compute. discriminate.
Defined.

(** With a current job each action reaches the store or opens the modal. *)
Example handleSwipe_on_a_job :
  let v :=
    {| DiscoverPage.stores := Scenario.fetched [Scenario.job1; Scenario.job2];
       DiscoverPage.page :=
         {| DiscoverPage.showApplyModal := false;
            DiscoverPage.selectedJob := None;
            DiscoverPage.showMenu := false |} |} in
  JobsStore.cursor
    (DiscoverPage.stores
       (DiscoverPage.handleSwipe Scenario.jobs_api_down "skip" v)) = 1
  /\ DiscoverPage.selectedJob
       (DiscoverPage.page
          (DiscoverPage.handleSwipe Scenario.jobs_api_down "apply" v))
     = Some Scenario.job1.
Proof. cbv zeta. split; reflexivity. Qed.

(** ** More on the HTTP gateway *)

Section GatewayPassThrough.
Import Axios ApiClient.
Variable net : Network.

(** A response with a 2xx status is passed to the caller as it came:
    the request was sent once, with the stored access token as its bearer,
    and nothing in the browser changed. *)
Theorem gateway_success_carries_bearer (fuel : nat) (c : Config) (w : World)
    (token : string) (r : Response) :
  let c' := request_interceptor (browser w) c in
  getItem "access_token" (browser w) = Some token ->
  Js.truthy token = true ->
  respond net (log w) c' = Replied r ->
  validateStatus (status r) = true ->
  api (S fuel) net c w = Some (Fulfilled r, emit (Sent c' (Replied r)) w)
  /\ Authorization c' = Some ("Bearer " ++ token)%string
  /\ url c' = url c.
Proof.
  intros c' Htoken Htruthy Hreply Hvalid.
  split.
  - cbn [api]. fold c'. rewrite Hreply, Hvalid. reflexivity.
  - subst c'. unfold request_interceptor. rewrite Htoken, Htruthy.
    split; reflexivity.
Qed.

(** X2.  An error that is not a 401 (another status, or no response at
    all) is rejected to the caller with the response untouched: no refresh
    is posted, the request is not replayed, the retry flag is not set and
    the browser is left as it was. *)
Theorem gateway_passes_other_errors (fuel : nat) (c : Config) (w : World)
    (reply : Reply) :
  let c' := request_interceptor (browser w) c in
  respond net (log w) c' = reply ->
  match reply with
  | Replied r => validateStatus (status r) = false /\ status r <> 401
  | NoReply => True
  end ->
  api (S fuel) net c w
  = Some (Rejected
            {| config := c';
               response :=
                 match reply with Replied r => Some r | NoReply => None end |},
          emit (Sent c' reply) w).
Proof.
  intros c' Hreply Hother. cbn [api]. fold c'. rewrite Hreply.
  destruct reply as [r|].
  - destruct Hother as [Hvalid Hstatus]. rewrite Hvalid.
    unfold response_rejected, unauthorized. cbn [response config].
    apply Z.eqb_neq in Hstatus. rewrite Hstatus. reflexivity.
  - reflexivity.
Qed.

(** X3.  A 401 when no refresh token is stored (or an empty one): the
    request is flagged, no refresh is posted, nothing is replayed, and the
    stored access token and the location stay as they were. *)
Theorem gateway_401_without_refresh_token (fuel : nat) (c : Config)
    (w : World) (r : Response) :
  let c' := request_interceptor (browser w) c in
  _retry c = false ->
  respond net (log w) c' = Replied r ->
  status r = 401 ->
  match getItem "refresh_token" (browser w) with
  | Some refreshToken => Js.truthy refreshToken = false
  | None => True
  end ->
  api (S fuel) net c w
  = Some (Rejected {| config := with_retry c'; response := Some r |},
          emit (Sent c' (Replied r)) w).
Proof.
  intros c' Hfresh Hreply Hstatus Hmissing.
  assert (Hvalid : validateStatus (status r) = false)
    by (rewrite Hstatus; reflexivity).
  assert (Hflag : _retry c' = false)
    by (subst c'; rewrite request_interceptor_retry; exact Hfresh).
  cbn [api]. fold c'. rewrite Hreply, Hvalid.
  unfold response_rejected, unauthorized.
  cbn [response config emit browser log]. rewrite Hstatus, Hflag.
  change ((401 =? 401) && negb false) with true. cbv iota.
  destruct (getItem "refresh_token" (browser w)) as [refreshToken|];
    [rewrite Hmissing|]; reflexivity.
Qed.

End GatewayPassThrough.

Lemma gateway_passes_other_errors_witness :
  Scenario.labels
    (ApiClient.api 1 Scenario.always_500 Scenario.get_jobs
       Scenario.gateway_start)
  = ["request"].
Proof.
  rewrite (gateway_passes_other_errors Scenario.always_500 0
             Scenario.get_jobs Scenario.gateway_start
             (Axios.Replied Scenario.error_500) eq_refl
             (conj eq_refl (Z.neq_sym _ _ (Z.lt_neq 401 500 eq_refl)))).
  reflexivity.
Defined.

Lemma gateway_401_without_refresh_token_witness :
  Scenario.labels
    (ApiClient.api 1 Scenario.always_401 Scenario.get_jobs
       Scenario.gateway_anonymous)
  = ["request"].
Proof.
  rewrite (gateway_401_without_refresh_token Scenario.always_401 0
             Scenario.get_jobs Scenario.gateway_anonymous
             {| Axios.status := 401; Axios.data := ""; Axios.detail := None |}
             eq_refl eq_refl eq_refl I).
  reflexivity.
Defined.

Lemma gateway_refresh_on_401_witness :
  Scenario.labels
    (ApiClient.api 2 Scenario.refresh_rejected Scenario.get_jobs
       Scenario.gateway_start)
  = ["request"; "refresh rejected"].
Proof.
  destruct (gateway_refresh_on_401 Scenario.refresh_rejected 0
              Scenario.get_jobs Scenario.gateway_start
              {| Axios.status := 401; Axios.data := ""; Axios.detail := None |}
              "r0" eq_refl eq_refl eq_refl eq_refl eq_refl)
    as (res & w' & Hrun & _ & Hlog & _).
  rewrite Hrun. unfold Scenario.labels. rewrite Hlog. reflexivity.
Defined.

(** ** More on the session store *)

Section SessionMore.
Import Axios Zustand AuthStore.
Context {User Profile : Type}.
Variable api : Api User Profile.

(** X4.  No mutator of the session store rejects: [login], [register],
    [updateProfile] and [fetchUser] catch every rejected request, so a
    caller that awaits them without a handler of its own is never
    interrupted. *)
Theorem session_mutators_never_throw (w : World (State User Profile))
    (email password : string) (userData : UserData) (data : Profile) :
  (exists ok, returned (login api email password) w = Normal ok)
  /\ (exists ok, returned (register api userData) w = Normal ok)
  /\ (exists ok, returned (updateProfile api data) w = Normal ok)
  /\ returned (fetchUser api) w = Normal tt.
Proof.
  repeat split; unfold_session.
  - destruct (authAPI_login api _); cbn; [|eauto].
    destruct (authAPI_getMe api), (profileAPI_get api); cbn; eauto.
  - destruct (authAPI_register api _); cbn; [|eauto].
    destruct (authAPI_login api _); cbn; [|eauto].
    destruct (authAPI_getMe api), (profileAPI_get api); cbn; eauto.
  - destruct (profileAPI_update api data); cbn; eauto.
  - destruct (authAPI_getMe api), (profileAPI_get api); reflexivity.
Qed.

(** [fetchUser] is idempotent: against the same answers a second call
    leaves the store of the first. *)
Theorem fetchUser_idempotent (w : World (State User Profile)) :
  store (final (fetchUser api) (final (fetchUser api) w))
  = store (final (fetchUser api) w).
Proof.
  unfold_session.
  destruct (authAPI_getMe api), (profileAPI_get api); reflexivity.
Qed.

(** X5.  When [authAPI.register] is rejected, [register] returns [false];
    [error] becomes the body of the answer, or [Registration failed],
    [isLoading] ends [false], and [user], [profile] and [isAuthenticated]
    are as before; [login] is not called. *)
Theorem register_rejected_outcome (userData : UserData)
    (w : World (State User Profile)) (failure : AxiosError) :
  authAPI_register api
    {| AuthStore.userData := userData;
       password_confirm := password userData |}
  = Rejected failure ->
  let w' := final (register api userData) w in
  returned (register api userData) w = Normal false
  /\ store w'
     = {| user := user (store w);
          profile := profile (store w);
          isAuthenticated := isAuthenticated (store w);
          isLoading := false;
          error :=
            Some (Js.or_else (response_data failure) "Registration failed")
       |}
  /\ ~ In "/auth/login/" (called (register api userData) w).
Proof.
  intros Hrejected w'. subst w'. unfold called. unfold_session.
  rewrite Hrejected. cbn. rewrite skipn_length_app.
  split; [reflexivity|]. split; [reflexivity|].
  cbn. intros [Hlogin|[]]. discriminate Hlogin.
Qed.


(** [updateProfile]: an accepted update stores the profile the server
    answers with and returns [true], and leaves [error] as it was, an
    earlier error included; a rejected one returns [false], keeps the
    profile and records a message. *)
Theorem updateProfile_outcome (data : Profile)
    (w : World (State User Profile)) :
  let w' := final (updateProfile api data) w in
  match profileAPI_update api data with
  | Fulfilled response =>
      returned (updateProfile api data) w = Normal true
      /\ profile (store w') = Some response
      /\ error (store w') = error (store w)
      /\ isLoading (store w') = false
  | Rejected failure =>
      returned (updateProfile api data) w = Normal false
      /\ profile (store w') = profile (store w)
      /\ error (store w')
         = Some (Js.or_else (response_data failure) "Update failed")
      /\ isLoading (store w') = false
  end.
Proof.
  cbv zeta. unfold_session.
  destruct (profileAPI_update api data); cbn; repeat split.
Qed.

End SessionMore.

Lemma register_rejected_outcome_witness :
  Zustand.returned
    (AuthStore.register Scenario.registration_closed
       {| AuthStore.email := "a@b.com"; AuthStore.password := "x" |})
    Scenario.anonymous
  = Zustand.Normal false.
Proof.
  exact (proj1 (register_rejected_outcome Scenario.registration_closed
                  {| AuthStore.email := "a@b.com"; AuthStore.password := "x" |}
                  Scenario.anonymous Axios.network_error eq_refl)).
Defined.



(** ** More on the job feed store *)

Section FeedMore.
Import Axios Zustand JobsStore History.

Lemma perform_jobs (op : Op) (w : World State) :
  refetches op = false -> jobs (store (perform op w)) = jobs (store w).
Proof.
  destruct op as [[response|failure]| |job [[]|failure]|job [[]|failure]
                 |[response|failure]];
    intros Hop; try discriminate Hop;
    cbn [perform]; unfold fetchRecommended, skipJob, saveJob, applyToJob,
      fetchSavedJobs; unfold_async; cbn; try reflexivity.
  destruct (currentIndex (store w) <? Js.length (jobs (store w)) - 1);
    reflexivity.
Qed.

(** X7.  Between two feeds the cursor only moves forward, by at most one
    per call, and the feed itself is not touched: this holds for every
    sequence of calls none of which is a [fetchRecommended] the server
    answered. *)
Theorem cursor_between_refetches (ops : list Op) (w : World State) :
  forallb (fun op => negb (refetches op)) ops = true ->
  cursor w <= cursor (performs ops w) <= cursor w + Js.length ops
  /\ jobs (store (performs ops w)) = jobs (store w).
Proof.
  revert w. induction ops as [|op ops IH]; intros w Hops.
  - cbn. unfold Js.length. cbn. split; [lia|reflexivity].
  - cbn [forallb] in Hops. apply andb_prop in Hops. destruct Hops as [Hop Hops].
    apply negb_true_iff in Hop.
    change (performs (op :: ops) w) with (performs ops (perform op w)).
    destruct (IH (perform op w) Hops) as [Hcursor Hjobs].
    rewrite Hjobs, (perform_jobs op w Hop). split; [|reflexivity].
    pose proof (perform_cursor op w) as Hstep.
    assert (Hone : cursor w <= cursor (perform op w) <= cursor w + 1).
    { rewrite Hstep.
      destruct op as [[response|failure]| |job [[]|failure]|job [[]|failure]
                     |[response|failure]]; try discriminate Hop; try lia.
      destruct (cursor w <? feed_length w - 1); lia. }
    unfold Js.length in *. cbn [List.length]. lia.
Qed.

Lemma perform_collections (op : Op) (w : World State) :
  resyncs op = false ->
  (exists more,
     savedJobs (store (perform op w)) = savedJobs (store w) ++ more)
  /\ (exists more,
        appliedJobs (store (perform op w)) = appliedJobs (store w) ++ more).
Proof.
  destruct op as [[response|failure]| |job [[]|failure]|job [[]|failure]
                 |[response|failure]];
    intros Hop; try discriminate Hop;
    cbn [perform]; unfold fetchRecommended, skipJob, saveJob, applyToJob,
      fetchSavedJobs; unfold_async; cbn;
    try (destruct (currentIndex (store w) <? Js.length (jobs (store w)) - 1);
         cbn);
    split; try (exists []; rewrite app_nil_r; reflexivity); eauto.
Qed.

(** X8.  Between two resynchronisations the saved and the applied
    collections only grow at their end: after any sequence of calls none of
    which is a [fetchSavedJobs] the server answered, each collection is the
    one before followed by the jobs added. *)
Theorem collections_between_resyncs (ops : list Op) (w : World State) :
  forallb (fun op => negb (resyncs op)) ops = true ->
  (exists more,
     savedJobs (store (performs ops w)) = savedJobs (store w) ++ more)
  /\ (exists more,
        appliedJobs (store (performs ops w)) = appliedJobs (store w) ++ more).
Proof.
  revert w. induction ops as [|op ops IH]; intros w Hops.
  - cbn. split; exists []; rewrite app_nil_r; reflexivity.
  - cbn [forallb] in Hops. apply andb_prop in Hops. destruct Hops as [Hop Hops].
    apply negb_true_iff in Hop.
    change (performs (op :: ops) w) with (performs ops (perform op w)).
    destruct (IH (perform op w) Hops) as [[s2 Hs2] [a2 Ha2]].
    destruct (perform_collections op w Hop) as [[s1 Hs1] [a1 Ha1]].
    rewrite Hs2, Ha2, Hs1, Ha1. rewrite <- !app_assoc. eauto.
Qed.

(** X9.  With a cursor that is not negative, [hasMoreJobs] answers [true]
    exactly when [getCurrentJob] returns a job. *)
Theorem hasMoreJobs_iff_current (w : World State) :
  0 <= cursor w ->
  returned hasMoreJobs w = Normal true
  <-> exists job, returned getCurrentJob w = Normal (Some job).
Proof.
  intros Hnonneg. unfold hasMoreJobs, getCurrentJob. unfold_async.
  fold (cursor w). fold (feed_length w).
  destruct (Js.index (jobs (store w)) (cursor w)) as [job|] eqn:Hindex.
  - assert (Hlt : cursor w < feed_length w).
    { destruct (Z.lt_ge_cases (cursor w) (feed_length w)) as [H|H];
        [exact H|].
      assert (Hnone : Js.index (jobs (store w)) (cursor w) = None)
        by (apply index_None_iff; right; exact H).
      congruence. }
    apply Z.ltb_lt in Hlt. rewrite Hlt. split; [eauto|reflexivity].
  - apply index_None_iff in Hindex.
    assert (Hge : (cursor w <? feed_length w) = false)
      by (apply Z.ltb_ge; unfold feed_length; lia).
    rewrite Hge. split; [discriminate|].
    intros [job Hjob]. discriminate Hjob.
Qed.

(** X10.  After a [fetchSavedJobs] the server answered no entry is in both
    collections, and together they hold no more entries than the answer:
    an entry with another status, or with none, is in neither. *)
Theorem fetchSavedJobs_disjoint (api : Api) (w : World State)
    (response : list Job) :
  savedJobsAPI_list api = Fulfilled response ->
  let w' := final (fetchSavedJobs api) w in
  (forall j, In j (savedJobs (store w')) -> ~ In j (appliedJobs (store w')))
  /\ (List.length (savedJobs (store w'))
      + List.length (appliedJobs (store w')) <= List.length response)%nat
  /\ (forall j, In j response -> status j <> Some "saved" ->
      status j <> Some "applied" ->
      ~ In j (savedJobs (store w')) /\ ~ In j (appliedJobs (store w'))).
Proof.
  intros Hanswer w'. subst w'. unfold fetchSavedJobs. unfold_async.
  rewrite Hanswer. cbn.
  assert (Htag : forall tag j, status_is tag j = true <-> status j = Some tag).
  { intros tag j. unfold status_is. destruct (status j) as [s|].
    - rewrite String.eqb_eq. split; congruence.
    - split; discriminate. }
  split; [|split].
  - intros j Hsaved Happlied.
    apply filter_In in Hsaved. apply filter_In in Happlied.
    destruct Hsaved as [_ Hsaved]. destruct Happlied as [_ Happlied].
    apply Htag in Hsaved. apply Htag in Happlied. congruence.
  - clear Hanswer. induction response as [|j response IH]; [cbn; lia|].
    cbn [List.filter].
    destruct (status_is "saved" j) eqn:Hs, (status_is "applied" j) eqn:Ha;
      cbn [List.length]; try lia.
    apply Htag in Hs. apply Htag in Ha. congruence.
  - intros j _ Hnot_saved Hnot_applied. split; intros Hin;
      apply filter_In in Hin; destruct Hin as [_ Hin]; apply Htag in Hin;
      congruence.
Qed.

End FeedMore.

Lemma cursor_between_refetches_witness :
  JobsStore.cursor
    (History.performs
       [JobsStore.OpSkip;
        JobsStore.OpSave Scenario.job2 (Axios.Fulfilled tt);
        JobsStore.OpApply Scenario.job3 (Axios.Rejected Axios.network_error)]
       (Scenario.fetched [Scenario.job1; Scenario.job2; Scenario.job3]))
  <= 3.
Proof.
  destruct (cursor_between_refetches
              [JobsStore.OpSkip;
               JobsStore.OpSave Scenario.job2 (Axios.Fulfilled tt);
               JobsStore.OpApply Scenario.job3
                 (Axios.Rejected Axios.network_error)]
              (Scenario.fetched [Scenario.job1; Scenario.job2; Scenario.job3])
              eq_refl)
    as [[_ Hupper] _].
  exact Hupper.
Defined.

Lemma collections_between_resyncs_witness :
  exists more,
    JobsStore.savedJobs
      (Zustand.store
         (History.performs
            [JobsStore.OpSave Scenario.job1 (Axios.Fulfilled tt);
             JobsStore.OpSkip]
            (Scenario.fetched [Scenario.job1; Scenario.job2])))
    = [] ++ more.
Proof.
  exact (proj1 (collections_between_resyncs
                  [JobsStore.OpSave Scenario.job1 (Axios.Fulfilled tt);
                   JobsStore.OpSkip]
                  (Scenario.fetched [Scenario.job1; Scenario.job2])
                  eq_refl)).
Defined.

Lemma hasMoreJobs_iff_current_witness :
  Zustand.returned JobsStore.hasMoreJobs (Scenario.fetched [Scenario.job1])
  = Zustand.Normal true.
Proof.
  apply (proj2 (hasMoreJobs_iff_current (Scenario.fetched [Scenario.job1])
                  (Z.le_refl 0))).
  exists Scenario.job1. reflexivity.
Defined.

Lemma fetchSavedJobs_disjoint_witness :
  let response :=
    [ {| JobsStore.id := 7; JobsStore.title := "a";
         JobsStore.status := Some "saved" |};
      {| JobsStore.id := 8; JobsStore.title := "b";
         JobsStore.status := Some "archived" |} ] in
  (List.length
     (JobsStore.savedJobs
        (Zustand.store
           (Zustand.final
              (JobsStore.fetchSavedJobs
                 (JobsStore.answering_list (Axios.Fulfilled response)))
              Scenario.fresh)))
   + List.length
       (JobsStore.appliedJobs
          (Zustand.store
             (Zustand.final
                (JobsStore.fetchSavedJobs
                   (JobsStore.answering_list (Axios.Fulfilled response)))
                Scenario.fresh))) <= 2)%nat.
Proof.
  cbv zeta.
  exact (proj1 (proj2 (fetchSavedJobs_disjoint
                         (JobsStore.answering_list (Axios.Fulfilled _))
                         Scenario.fresh _ eq_refl))).
Defined.

(** ** More on the discover page and the card stack *)

Section DiscoverMore.
Import Axios Zustand JobsStore DiscoverPage.
Variable api : Api.

(** X11.  A released drag and the button of the same decision do the same
    thing to the page: beyond the right threshold the drag is [onApply],
    beyond the left one [onSkip], beyond the upper one (and within the
    horizontal ones) [onSave], and otherwise it changes nothing. *)
Theorem dragEnd_matches_buttons (info : SwipeCard.PanInfo) (v : View) :
  let dx := SwipeCard.x (SwipeCard.offset info) in
  let dy := SwipeCard.y (SwipeCard.offset info) in
  ((100 < dx)%Q -> dragEnd api info v = onApply api v)
  /\ ((dx < -100)%Q -> dragEnd api info v = onSkip api v)
  /\ ((-100 <= dx)%Q -> (dx <= 100)%Q -> (dy < -100)%Q ->
      dragEnd api info v = onSave api v)
  /\ ((-100 <= dx)%Q -> (dx <= 100)%Q -> (-100 <= dy)%Q ->
      dragEnd api info v = v).
Proof.
  cbv zeta. unfold dragEnd, SwipeCard.handleDragEnd, onApply, onSkip, onSave.
  change (Qopp 100) with (-100)%Q.
  destruct (Js.gt (SwipeCard.x (SwipeCard.offset info)) 100) eqn:Hgt.
  { apply gt_spec in Hgt. cbn [fold_left].
    repeat split; intros; try reflexivity; offset_contradiction. }
  assert (Hle : (SwipeCard.x (SwipeCard.offset info) <= 100)%Q).
  { apply Qnot_lt_le. intros H. apply gt_spec in H. congruence. }
  destruct (Js.lt (SwipeCard.x (SwipeCard.offset info)) (-100)) eqn:Hlt.
  { apply lt_spec in Hlt. cbn [fold_left].
    repeat split; intros; try reflexivity; offset_contradiction. }
  assert (Hge : (-100 <= SwipeCard.x (SwipeCard.offset info))%Q).
  { apply Qnot_lt_le. intros H. apply lt_spec in H. congruence. }
  destruct (Js.lt (SwipeCard.y (SwipeCard.offset info)) (-100)) eqn:Hup.
  { apply lt_spec in Hup. cbn [fold_left].
    repeat split; intros; try reflexivity; offset_contradiction. }
  assert (Hdown : (-100 <= SwipeCard.y (SwipeCard.offset info))%Q).
  { apply Qnot_lt_le. intros H. apply lt_spec in H. congruence. }
  cbn [fold_left].
  repeat split; intros; try reflexivity; offset_contradiction.
Qed.

(** An [apply] decision on a job only opens the modal for that job:
    the store is not changed and no request is made until [handleApply]. *)
Theorem handleSwipe_apply_defers (v : View) (job : Job) :
  currentJob v = Some job ->
  stores (handleSwipe api "apply" v) = stores v
  /\ showApplyModal (page (handleSwipe api "apply" v)) = true
  /\ selectedJob (page (handleSwipe api "apply" v)) = Some job.
Proof.
  intros Hjob. unfold handleSwipe. rewrite Hjob. cbn. repeat split.
Qed.

(** X12.  [handleApply] closes the modal and forgets the selected job
    whatever the server answers.  When the server accepts, the job is
    appended to [appliedJobs] and the cursor moves by one; when it rejects,
    the store is unchanged, and the page keeps no trace of the failure
    beyond the console. *)
Theorem handleApply_outcome (v : View) (job : Job) :
  selectedJob (page v) = Some job ->
  let v' := handleApply api v in
  showApplyModal (page v') = false
  /\ selectedJob (page v') = None
  /\ match savedJobsAPI_save api
             {| JobsStore.job := id job; save_status := "applied" |} with
     | Fulfilled _ =>
         appliedJobs (store (stores v'))
         = appliedJobs (store (stores v)) ++ [job]
         /\ cursor (stores v') = cursor (stores v) + 1
     | Rejected _ =>
         store (stores v') = store (stores v)
         /\ console (stores v') = console (stores v) ++ ["Failed to apply:"]
     end.
Proof.
  intros Hselected v'. subst v'. unfold handleApply. rewrite Hselected.
  cbn [page stores showApplyModal selectedJob].
  split; [reflexivity|]. split; [reflexivity|].
  unfold applyToJob, cursor. unfold_async.
  destruct (savedJobsAPI_save api _) as [[]|failure]; cbn; split; reflexivity.
Qed.


End DiscoverMore.

Section Stack.
Import JobsStore CardStack.

Lemma relative_within (len i : Z) :
  0 <= i -> 0 <= len -> JsArray.relative len i = Z.min i len.
Proof.
  intros Hi Hlen. unfold JsArray.relative.
  destruct (Z.ltb_spec i 0); [lia|reflexivity].
Qed.

Lemma head_skipn {A : Type} (l : list A) (n : nat) :
  List.head (skipn n l) = nth_error l n.
Proof.
  revert l. induction n as [|n IH]; intros [|a l]; cbn; try reflexivity.
  apply IH.
Qed.

Lemma head_firstn {A : Type} (l : list A) (n : nat) :
  (0 < n)%nat -> List.head (firstn n l) = List.head l.
Proof. intros Hn. destruct n; [lia|]. destruct l; reflexivity. Qed.

(** X14.  With a cursor that is not negative the stack shows at most three
    cards, the card on top is the job the page's handlers act on
    ([jobs[currentIndex]]), and the stack is empty exactly when the action
    buttons are disabled. *)
Theorem visibleCards_top (jobs : list Job) (currentIndex : Z) :
  0 <= currentIndex ->
  (List.length (visibleCards jobs currentIndex) <= 3)%nat
  /\ topCard jobs currentIndex = Js.index jobs currentIndex
  /\ noMoreJobs jobs currentIndex = actionsDisabled jobs currentIndex
  /\ visibleCards jobs currentIndex
     = firstn 3 (skipn (Z.to_nat currentIndex) jobs).
Proof.
  intros Hnonneg.
  assert (Hlen : 0 <= Js.length jobs) by (unfold Js.length; lia).
  assert (Hshape : visibleCards jobs currentIndex
                   = firstn 3 (skipn (Z.to_nat currentIndex) jobs)).
  { unfold visibleCards, JsArray.slice.
    rewrite !relative_within by lia.
    destruct (Z.le_gt_cases (Js.length jobs) currentIndex) as [Hpast|Hin].
    - rewrite !skipn_all2 by (unfold Js.length in *; lia).
      rewrite !firstn_nil. reflexivity.
    - rewrite (Z.min_l currentIndex) by lia.
      destruct (Z.le_gt_cases (currentIndex + 3) (Js.length jobs)) as [H3|H3].
      + rewrite Z.min_l by lia.
        replace (currentIndex + 3 - currentIndex) with 3 by lia.
        reflexivity.
      + rewrite Z.min_r by lia.
        rewrite !firstn_all2; [reflexivity| |];
          rewrite length_skipn; unfold Js.length in *; lia. }
  split; [rewrite Hshape; rewrite length_firstn; lia|].
  assert (Htop : topCard jobs currentIndex = Js.index jobs currentIndex).
  { unfold topCard. rewrite Hshape, head_firstn by lia.
    rewrite head_skipn. unfold Js.index.
    destruct (Z.ltb_spec currentIndex 0); [lia|reflexivity]. }
  split; [exact Htop|]. split; [|exact Hshape].
  unfold noMoreJobs, actionsDisabled. rewrite <- Htop. unfold topCard.
  destruct (visibleCards jobs currentIndex); reflexivity.
Qed.

End Stack.

Lemma handleApply_outcome_witness :
  DiscoverPage.showApplyModal
    (DiscoverPage.page
       (DiscoverPage.handleApply Scenario.jobs_api_down
          (Scenario.applying Scenario.job1
             (Scenario.fetched [Scenario.job1; Scenario.job2]))))
  = false.
Proof.
  exact (proj1 (handleApply_outcome Scenario.jobs_api_down
                  (Scenario.applying Scenario.job1
                     (Scenario.fetched [Scenario.job1; Scenario.job2]))
                  Scenario.job1 eq_refl)).
Defined.


Lemma visibleCards_top_witness :
  CardStack.topCard [Scenario.job1; Scenario.job2] 1 = Some Scenario.job2.
Proof.
  rewrite (proj1 (proj2 (visibleCards_top [Scenario.job1; Scenario.job2] 1
                           (Z.lt_le_incl 0 1 eq_refl)))).
  reflexivity.
Defined.

(** ** The signup wizard *)

Section Wizard.
Import Axios Zustand SignupWizard.

(** X15.  The step of the wizard stays within 1 .. 6 under any sequence of
    clicks on Next and Back, and a Back undoes a Next that moved. *)
Theorem wizard_step_in_range (clicks : list Click) (step : Z) :
  1 <= step <= 6 ->
  1 <= fold_left (fun s c => click c s) clicks step <= 6
  /\ (step < 6 -> handleBack (handleNext step) = step)
  /\ (1 < step -> handleNext (handleBack step) = step).
Proof.
  intros Hrange. split.
  - revert step Hrange. induction clicks as [|c clicks IH]; intros step Hrange.
    + exact Hrange.
    + cbn [fold_left]. apply IH.
      destruct c; unfold click, handleNext, handleBack.
      * destruct (Z.ltb_spec step 6); lia.
      * destruct (Z.ltb_spec 1 step); lia.
  - unfold handleNext, handleBack. split; intros Hmove.
    + destruct (Z.ltb_spec step 6); [|lia].
      destruct (Z.ltb_spec 1 (step + 1)); lia.
    + destruct (Z.ltb_spec 1 step); [|lia].
      destruct (Z.ltb_spec (step - 1) 6); lia.
Qed.

Lemma includes_In (x : string) (items : list string) :
  JsArray.includes x items = true <-> In x items.
Proof.
  unfold JsArray.includes. rewrite existsb_exists. split.
  - intros (y & Hin & Heq). apply String.eqb_eq in Heq. subst y. exact Hin.
  - intros Hin. exists x. split; [exact Hin|apply String.eqb_refl].
Qed.

Lemma includes_not_In (x : string) (items : list string) :
  JsArray.includes x items = false <-> ~ In x items.
Proof.
  rewrite <- includes_In. destruct (JsArray.includes x items); split;
    congruence.
Qed.

Lemma filter_other (item : string) (items : list string) :
  ~ In item items ->
  List.filter (fun i => negb (String.eqb i item)) items = items.
Proof.
  induction items as [|a items IH]; intros Hnot; [reflexivity|].
  cbn. destruct (String.eqb_spec a item) as [Heq|Hne].
  - exfalso. apply Hnot. left. exact Heq.
  - cbn. f_equal. apply IH. intros Hin. apply Hnot. right. exact Hin.
Qed.

Lemma filter_as_remove (item : string) (items : list string) :
  List.filter (fun i => negb (String.eqb i item)) items
  = List.remove String.string_dec item items.
Proof.
  induction items as [|a items IH]; [reflexivity|].
  cbn [List.filter List.remove].
  destruct (String.string_dec item a) as [Heq|Hne].
  - subst a. rewrite String.eqb_refl. cbn. exact IH.
  - destruct (String.eqb_spec a item) as [Heq|_]; [congruence|].
    cbn. f_equal. exact IH.
Qed.

Lemma filter_filter_same {A : Type} (f : A -> bool) (l : list A) :
  List.filter f (List.filter f l) = List.filter f l.
Proof.
  induction l as [|a l IH]; [reflexivity|].
  cbn. destruct (f a) eqn:Hfa; [|exact IH].
  cbn. rewrite Hfa, IH. reflexivity.
Qed.

Lemma count_occ_filter_other (item x : string) (items : list string) :
  x <> item ->
  count_occ String.string_dec
    (List.filter (fun i => negb (String.eqb i item)) items) x
  = count_occ String.string_dec items x.
Proof.
  intros Hne. induction items as [|a items IH]; [reflexivity|].
  cbn [List.filter]. destruct (String.eqb_spec a item) as [Heq|Hother].
  - subst a. cbn [negb count_occ].
    destruct (String.string_dec item x) as [Heq|_]; [congruence|exact IH].
  - cbn [negb count_occ].
    destruct (String.string_dec a x); rewrite IH; reflexivity.
Qed.

(** X16.  [toggleArrayItem] on a list.  An item that is absent is added at
    the end; an item that is present is removed with all its copies; in
    both cases the other items keep their order and their copies.  Hence
    the membership of the result, that toggling an absent item twice gives
    the list back, and that a list without repetition stays so. *)
Theorem toggled_membership (items : list string) (item : string) :
  (~ In item items -> toggled items item = items ++ [item])
  /\ (In item items ->
      toggled items item = List.remove String.string_dec item items
      /\ ~ In item (toggled items item))
  /\ List.filter (fun i => negb (String.eqb i item)) (toggled items item)
     = List.filter (fun i => negb (String.eqb i item)) items
  /\ (forall x, x <> item ->
      count_occ String.string_dec (toggled items item) x
      = count_occ String.string_dec items x)
  /\ (forall x, In x (toggled items item)
                <-> (x = item /\ ~ In item items)
                    \/ (x <> item /\ In x items))
  /\ (~ In item items -> toggled (toggled items item) item = items)
  /\ (List.NoDup items -> List.NoDup (toggled items item)).
Proof.
  destruct (JsArray.includes item items) eqn:Hinc.
  - assert (Hshape : toggled items item
                     = List.filter (fun i => negb (String.eqb i item)) items)
      by (unfold toggled; rewrite Hinc; reflexivity).
    apply includes_In in Hinc. rewrite Hshape.
    split; [intros Hnot; contradiction|].
    split; [intros _; split; [apply filter_as_remove|]|].
    { rewrite filter_In, negb_true_iff, String.eqb_neq. intros [_ Hne].
      apply Hne. reflexivity. }
    split; [apply filter_filter_same|].
    split; [|split; [|split]].
    + intros x Hne. apply count_occ_filter_other. exact Hne.
    + intros x. rewrite filter_In, negb_true_iff, String.eqb_neq.
      split.
      * intros [Hin Hne]. right. split; assumption.
      * intros [[_ Hnot]|[Hne Hin]]; [contradiction|split; assumption].
    + intros Hnot. contradiction.
    + intros Hnodup. apply List.NoDup_filter. exact Hnodup.
  - assert (Hshape : toggled items item = items ++ [item])
      by (unfold toggled; rewrite Hinc; reflexivity).
    apply includes_not_In in Hinc. rewrite Hshape.
    split; [intros _; reflexivity|].
    split; [intros Hin; contradiction|].
    split; [|split; [|split; [|split]]].
    + rewrite List.filter_app. cbn. rewrite String.eqb_refl. cbn.
      apply app_nil_r.
    + intros x Hne. rewrite count_occ_app. cbn.
      destruct (String.string_dec item x) as [Heq|_]; [congruence|lia].
    + intros x. rewrite in_app_iff. cbn. split.
      * intros [Hin|[Heq|[]]].
        -- right. split; [|exact Hin]. intros Heq. subst x. contradiction.
        -- left. split; [symmetry; exact Heq|exact Hinc].
      * intros [[Heq _]|[_ Hin]]; [right; left; symmetry; exact Heq|].
        left. exact Hin.
    + intros _. unfold toggled.
      assert (Hnow : JsArray.includes item (items ++ [item]) = true).
      { apply includes_In. apply in_app_iff. right. left. reflexivity. }
      rewrite Hnow, List.filter_app, filter_other by exact Hinc. cbn.
      rewrite String.eqb_refl. cbn. apply app_nil_r.
    + intros Hnodup. apply List.NoDup_app; [exact Hnodup| |].
      * constructor; [intros []|constructor].
      * intros x Hin [Heq|[]]. subst x. contradiction.
Qed.

Lemma toggled_length (items : list string) (item : string) :
  (List.length (toggled items item) <= S (List.length items))%nat
  /\ (In item items ->
      (List.length (toggled items item) < List.length items)%nat).
Proof.
  unfold toggled. destruct (JsArray.includes item items) eqn:Hinc.
  - split.
    + pose proof (List.filter_length_le (fun i => negb (String.eqb i item)) items).
      lia.
    + intros _. apply includes_In in Hinc.
      induction items as [|a items IH]; [destruct Hinc|].
      cbn. destruct (String.eqb_spec a item) as [Heq|Hne]; cbn.
      * pose proof (List.filter_length_le
                      (fun i => negb (String.eqb i item)) items).
        lia.
      * destruct Hinc as [Heq|Hin]; [contradiction|].
        specialize (IH Hin). lia.
  - split; [rewrite length_app; cbn; lia|].
    intros Hin. apply includes_not_In in Hinc. contradiction.
Qed.

(** X17.  The skill buttons never let more than ten skills be selected.
    With the button's [disabled] rule a click on a skill turns a selection
    of at most ten skills into one of at most ten: a selected skill is
    removed, an unselected one is added at the end while fewer than ten are
    selected, and with ten selected the click changes nothing.  No other
    field of the form is touched. *)
Theorem clickSkill_limit (skill : string) (formData : FormData) :
  (List.length (skills formData) <= 10)%nat ->
  let clicked := clickSkill skill formData in
  (List.length (skills clicked) <= 10)%nat
  /\ (In skill (skills formData) ->
      skills clicked
      = List.remove String.string_dec skill (skills formData))
  /\ (~ In skill (skills formData) ->
      (List.length (skills formData) < 10)%nat ->
      skills clicked = skills formData ++ [skill])
  /\ (~ In skill (skills formData) ->
      List.length (skills formData) = 10%nat ->
      clicked = formData)
  /\ clicked
     = {| firstName := firstName formData;
          lastName := lastName formData;
          email := email formData;
          password := password formData;
          degree := degree formData;
          field_ := field_ formData;
          institution := institution formData;
          graduationYear := graduationYear formData;
          status := status formData;
          skills := skills clicked;
          bio := bio formData;
          portfolioUrl := portfolioUrl formData;
          linkedinUrl := linkedinUrl formData;
          preferredJobTypes := preferredJobTypes formData;
          preferredLocations := preferredLocations formData;
          resumeText := resumeText formData |}.
Proof.
  intros Hten clicked. subst clicked. unfold clickSkill, skillDisabled.
  destruct (JsArray.includes skill (skills formData)) eqn:Hinc; cbn [negb andb].
  - apply includes_In in Hinc.
    unfold toggleArrayItem, write, read. cbn [skills].
    destruct (toggled_length (skills formData) skill) as [_ Hless].
    specialize (Hless Hinc).
    split; [lia|]. split; [|split; [|split]].
    + intros _. unfold toggled.
      apply includes_In in Hinc. rewrite Hinc. apply filter_as_remove.
    + intros Hnot. contradiction.
    + intros Hnot. contradiction.
    + reflexivity.
  - apply includes_not_In in Hinc.
    destruct (Z.leb_spec 10 (Js.length (skills formData))) as [Hfull|Hroom].
    + split; [exact Hten|]. split; [intros Hin; contradiction|].
      split; [unfold Js.length in Hfull; intros _ Hlt; lia|].
      split; [reflexivity|]. destruct formData; reflexivity.
    + unfold toggleArrayItem, write, read. cbn [skills].
      assert (Hshape : toggled (skills formData) skill
                       = skills formData ++ [skill]).
      { unfold toggled. apply includes_not_In in Hinc. rewrite Hinc.
        reflexivity. }
      rewrite Hshape. unfold Js.length in Hroom.
      split; [rewrite length_app; cbn; lia|].
      split; [intros Hin; contradiction|].
      split; [reflexivity|]. split; [intros _ Hfull; lia|reflexivity].
Qed.

End Wizard.

Lemma wizard_step_in_range_witness :
  SignupWizard.handleNext 6 = 6 /\ SignupWizard.handleBack 1 = 1
  /\ 1 <= fold_left (fun s c => SignupWizard.click c s)
            [SignupWizard.Back; SignupWizard.Next; SignupWizard.Next] 1
       <= 6.
Proof.
  split; [reflexivity|]. split; [reflexivity|].
  exact (proj1 (wizard_step_in_range
                  [SignupWizard.Back; SignupWizard.Next; SignupWizard.Next] 1
                  (conj (Z.le_refl 1) (Z.lt_le_incl 1 6 eq_refl)))).
Defined.

Lemma clickSkill_limit_witness :
  SignupWizard.clickSkill "Docker" Scenario.ten_skills = Scenario.ten_skills.
Proof.
  refine (proj1 (proj2 (proj2 (proj2
            (clickSkill_limit "Docker" Scenario.ten_skills _)))) _ eq_refl).
  - cbn. lia.
  - cbn. intros H.
    repeat (destruct H as [H|H]; [discriminate H|]). exact H.
Defined.

(** ** Signing up, signing in and the routes *)

Section SignUp.
Import Axios Zustand SignupWizard.
Context {User : Type}.
Variable api : AuthStore.Api User ProfileData.
Variable message_of : AxiosError -> option string.

(** X18.  The wizard, with the [onComplete] of the signup page.  When the
    registration or the login that follows it is rejected, the wizard shows
    [Registration failed], [updateProfile] is not called and neither is
    [onComplete]: whatever callback the wizard was given, the outcome is
    the one without a callback.  Otherwise [updateProfile] is called and
    the page goes to [/discover], whether the server accepts the profile
    or not: a rejected profile update is not shown by the wizard.  In both
    cases [isLoading] ends false. *)
Theorem wizard_submit_outcome
    (w : World (Cells * AuthStore.State User ProfileData)) :
  let run := handleSubmit api (Some handleComplete) message_of in
  let data := formData (fst (store w)) in
  let w' := final run w in
  returned run w = Normal tt
  /\ isLoading (fst (store w')) = false
  /\ if AuthStore.fails api
          (AuthStore.Register
             {| AuthStore.email := email data;
                AuthStore.password := password data |})
     then error (fst (store w')) = Some "Registration failed"
          /\ ~ In "/profile/" (called run w)
          /\ forall callback,
               final (handleSubmit api (Some callback) message_of) w
               = final (handleSubmit api None message_of) w
     else error (fst (store w')) = None
          /\ location_href (browser w') = "/discover"
          /\ In "/profile/" (called run w).
Proof.
  cbv zeta. unfold called.
  unfold handleSubmit, submitted, handleComplete, AuthStore.fails,
    AuthStore.login_rejected.
  unfold_components. cbn.
  destruct (AuthStore.authAPI_register api _) as [[]|failure]; cbn.
  2:{ rewrite <- ?app_assoc, ?skipn_length_app. cbn.
      split; [reflexivity|]. split; [reflexivity|].
      split; [reflexivity|]. split; [|reflexivity].
      intros [H|[]]. discriminate H. }
  destruct (AuthStore.authAPI_login api _) as [tokens|failure]; cbn.
  2:{ rewrite <- ?app_assoc, ?skipn_length_app. cbn.
      split; [reflexivity|]. split; [reflexivity|].
      split; [reflexivity|]. split; [|reflexivity].
      intros [H|[H|[]]]; discriminate H. }
  destruct (AuthStore.authAPI_getMe api), (AuthStore.profileAPI_get api);
    cbn;
    destruct (AuthStore.profileAPI_update api _); cbn;
    rewrite <- ?app_assoc, ?skipn_length_app; cbn;
    repeat split; auto 6.
Qed.

End SignUp.

Section SignIn.
Import Axios Zustand.
Context {User Profile : Type}.
Variable api : AuthStore.Api User Profile.


(** X20.  Every route ends on a page after at most three redirections.
    An anonymous visitor only ever sees the login or the signup page; an
    authenticated one never sees either of them. *)
Theorem routes_resolve (fuel : nat) (isAuthenticated : bool) (r : App.Route) :
  (4 <= fuel)%nat ->
  exists p,
    App.resolve fuel isAuthenticated r = Some p
    /\ (isAuthenticated = false ->
        p = App.LoginPage \/ p = App.SignupPage)
    /\ (isAuthenticated = true ->
        p <> App.LoginPage /\ p <> App.SignupPage).
Proof.
  intros Hfuel.
  destruct fuel as [|[|[|[|fuel]]]]; try lia.
  destruct isAuthenticated, r; cbn; eexists; (split; [reflexivity|]);
    split; intros H; try discriminate H; auto; split; discriminate.
Qed.

(** X21.  The effect of [AppContent], run at mount and when
    [isAuthenticated] changes, makes no request and leaves the store alone
    when no access token is stored (or an empty one) and when the store
    already says authenticated; in that second case the user is not
    fetched again. *)
Theorem mountEffect_skips (w : World (AuthStore.State User Profile)) :
  match getItem "access_token" (browser w) with
  | Some token => Js.truthy token = false
  | None => True
  end
  \/ AuthStore.isAuthenticated (store w) = true ->
  final (App.mountEffect api) w = w
  /\ called (App.mountEffect api) w = [].
Proof.
  intros Hskip. unfold called. unfold App.mountEffect. unfold_components.
  assert (Htest :
    (match getItem "access_token" (browser w) with
     | Some t => Js.truthy t
     | None => false
     end && negb (AuthStore.isAuthenticated (store w))) = false).
  { destruct Hskip as [Htoken|Hauth].
    - destruct (getItem "access_token" (browser w));
        [rewrite Htoken|]; reflexivity.
    - rewrite Hauth. apply andb_false_r. }
  rewrite Htest. cbn. rewrite skipn_length_self. split; [|reflexivity].
  destruct w; reflexivity.
Qed.

(** X22.  With an access token stored and a store that is not
    authenticated, the effect of [AppContent] is [fetchUser]: when the server answers
    both requests the root route then shows the discover page, and when it
    rejects one the root route shows the login page. *)
Theorem mountEffect_probes (w : World (AuthStore.State User Profile))
    (token : string) :
  getItem "access_token" (browser w) = Some token ->
  Js.truthy token = true ->
  AuthStore.isAuthenticated (store w) = false ->
  let w' := final (App.mountEffect api) w in
  w' = final (AuthStore.fetchUser api) w
  /\ App.resolve 4 (AuthStore.isAuthenticated (store w')) App.Root
     = Some
         (if is_rejected
               (AuthStore.Promise_all (AuthStore.authAPI_getMe api)
                  (AuthStore.profileAPI_get api))
          then App.LoginPage
          else App.DiscoverPage).
Proof.
  intros Htoken Htruthy Hanonymous. cbv zeta.
  unfold App.mountEffect. unfold_components.
  rewrite Htoken, Htruthy, Hanonymous. cbn.
  split; [reflexivity|].
  destruct (AuthStore.authAPI_getMe api), (AuthStore.profileAPI_get api);
    reflexivity.
Qed.

(** X23.  [handleLogout] removes both credentials, empties the session and
    goes to [/login]; from then on every route shows the login or the
    signup page. *)
Theorem handleLogout_signs_out (w : World (AuthStore.State User Profile))
    (r : App.Route) :
  let w' := final App.handleLogout w in
  getItem "access_token" (browser w') = None
  /\ getItem "refresh_token" (browser w') = None
  /\ location_href (browser w') = "/login"
  /\ AuthStore.user (store w') = None
  /\ AuthStore.profile (store w') = None
  /\ (App.resolve 4 (AuthStore.isAuthenticated (store w')) r
      = Some App.LoginPage
      \/ App.resolve 4 (AuthStore.isAuthenticated (store w')) r
         = Some App.SignupPage).
Proof.
  cbv zeta. unfold App.handleLogout, AuthStore.logout. unfold_components.
  unfold getItem, removeItem, navigate. cbn.
  repeat split.
  - rewrite lookup_delete_ne by discriminate. apply lookup_delete_eq.
  - apply lookup_delete_eq.
  - destruct r; cbn; auto.
Qed.

End SignIn.

Lemma routes_resolve_witness :
  App.resolve 4 false App.NoMatch = Some App.LoginPage.
Proof.
  destruct (routes_resolve 4 false App.NoMatch (le_n 4))
    as (p & Hresolve & _).
  reflexivity.
Defined.

Lemma mountEffect_skips_witness :
  Zustand.called (App.mountEffect Scenario.all_accepted) Scenario.anonymous
  = [].
Proof.
  exact (proj2 (mountEffect_skips Scenario.all_accepted Scenario.anonymous
                  (or_introl I))).
Defined.

Lemma mountEffect_probes_witness :
  App.resolve 4
    (AuthStore.isAuthenticated
       (Zustand.store
          (Zustand.final (App.mountEffect Scenario.me_rejected)
             Scenario.returning)))
    App.Root
  = Some App.LoginPage.
Proof.
  exact (proj2 (mountEffect_probes Scenario.me_rejected Scenario.returning
                  "a0" eq_refl eq_refl eq_refl)).
Defined.

(** ** The apply modal and the saved jobs page *)

Section Modal.
Import Axios Zustand ApplyModal.
Variable aiAPI_generateEmail : Z -> Settled Email.

(** X24.  [generateEmail] shows the spinner while the request is pending
    and never afterwards.  An answer becomes the email shown and clears the
    error; a rejection keeps the email that was there and sets the message
    that one can still apply. *)
Theorem generateEmail_outcome (job : JobsStore.Job) (w : World Cells) :
  let run := generateEmail aiAPI_generateEmail job in
  let w' := final run w in
  returned run w = Normal tt
  /\ Forall (fun c => isGenerating c = true /\ error c = None)
       (rendered run w)
  /\ isGenerating (store w') = false
  /\ match aiAPI_generateEmail (JobsStore.id job) with
     | Fulfilled response =>
         email (store w') = Some response /\ error (store w') = None
     | Rejected _ =>
         email (store w') = email (store w)
         /\ error (store w')
            = Some "Failed to generate email. You can still apply directly!"
     end.
Proof.
  cbv zeta. unfold rendered. unfold generateEmail. unfold_async.
  destruct (aiAPI_generateEmail (JobsStore.id job)); cbn;
    rewrite skipn_length_app; cbn; repeat split; repeat constructor.
Qed.

End Modal.

Section Saved.
Import Axios Zustand JobsStore.
Variable api : Api.
Variable savedJobsAPI_delete : Z -> Settled unit.


(** No mutator of the job feed store rejects: [fetchRecommended],
    [saveJob], [applyToJob] and [fetchSavedJobs] catch every rejected
    request. *)
Theorem feed_mutators_never_throw (job : Job) (w : World State) :
  returned (fetchRecommended api) w = Normal tt
  /\ returned (saveJob api job) w = Normal tt
  /\ (exists ok, returned (applyToJob api job) w = Normal ok)
  /\ returned (fetchSavedJobs api) w = Normal tt.
Proof.
  unfold fetchRecommended, saveJob, applyToJob, fetchSavedJobs. unfold_async.
  repeat split.
  - destruct (jobsAPI_recommended api); reflexivity.
  - destruct (savedJobsAPI_save api _); reflexivity.
  - destruct (savedJobsAPI_save api _); cbn; eauto.
  - destruct (savedJobsAPI_list api); reflexivity.
Qed.

End Saved.

(** ** The resume analyzer *)

Section Strings.
Import JsString.

Lemma append_cons (c : ascii) (a b : string) :
  (String c a ++ b)%string = String c (a ++ b)%string.
Proof. reflexivity. Qed.

Lemma toLowerCase_app (a b : string) :
  toLowerCase (a ++ b) = (toLowerCase a ++ toLowerCase b)%string.
Proof.
  induction a as [|c a IH]; [reflexivity|].
  rewrite append_cons. cbn [toLowerCase]. rewrite IH. reflexivity.
Qed.

Lemma toLowerCase_length (s : string) :
  String.length (toLowerCase s) = String.length s.
Proof.
  induction s as [|c s IH]; [reflexivity|].
  cbn [toLowerCase String.length]. rewrite IH. reflexivity.
Qed.

Lemma drop_app (a b : string) : drop (String.length a) (a ++ b) = b.
Proof.
  induction a as [|c a IH]; [destruct b; reflexivity|].
  rewrite append_cons. exact IH.
Qed.

Lemma drop_length (n : nat) (s : string) :
  String.length (drop n s) = (String.length s - n)%nat.
Proof.
  revert s. induction n as [|n IH]; intros [|c s]; cbn; try reflexivity.
  apply IH.
Qed.

Lemma app_length (a b : string) :
  String.length (a ++ b) = (String.length a + String.length b)%nat.
Proof.
  induction a as [|c a IH]; [reflexivity|].
  rewrite append_cons. cbn [String.length]. rewrite IH. reflexivity.
Qed.

(** The scan from position [i] in terms of the scan from 0. *)
Lemma lastIndexOf_from_shift (c : ascii) (s : string) (i found : Z) :
  -1 <= lastIndexOf c s < Z.of_nat (String.length s)
  /\ lastIndexOf_from c s i found
     = (if lastIndexOf c s =? -1 then found else i + lastIndexOf c s).
Proof.
  unfold lastIndexOf. revert i found.
  induction s as [|a s IH]; intros i found.
  - cbn. split; [lia|reflexivity].
  - cbn [lastIndexOf_from String.length].
    destruct (IH 1 (if Ascii.eqb a c then 0 else -1)) as [Hrange Hone].
    destruct (IH (i + 1) (if Ascii.eqb a c then i else found)) as [_ Hi].
    change (0 + 1) with 1. rewrite Hone, Hi.
    destruct (Z.eqb_spec (lastIndexOf_from c s 0 (-1)) (-1)) as [Hnone|Hsome].
    + destruct (Ascii.eqb a c); cbn; split; try lia; try reflexivity.
    + destruct (Z.eqb_spec (1 + lastIndexOf_from c s 0 (-1)) (-1)); lia.
Qed.

Lemma lastIndexOf_from_app (c : ascii) (a b : string) (i found : Z) :
  lastIndexOf_from c (a ++ b) i found
  = lastIndexOf_from c b (i + Z.of_nat (String.length a))
      (lastIndexOf_from c a i found).
Proof.
  revert i found. induction a as [|x a IH]; intros i found.
  - cbn. rewrite Z.add_0_r. reflexivity.
  - rewrite append_cons. cbn [lastIndexOf_from String.length]. rewrite IH.
    f_equal. lia.
Qed.

(** The last dot of [base.ext] when [ext] has none. *)
Lemma lastIndexOf_extension (base ext : string) :
  lastIndexOf "." ext = -1 ->
  lastIndexOf "." (base ++ String "." ext) = Z.of_nat (String.length base).
Proof.
  intros Hnone. unfold lastIndexOf at 1. rewrite lastIndexOf_from_app.
  cbn [lastIndexOf_from]. rewrite Ascii.eqb_refl.
  destruct (lastIndexOf_from_shift "." ext
              (0 + Z.of_nat (String.length base) + 1)
              (0 + Z.of_nat (String.length base))) as [_ Hshift].
  rewrite Hshift, Hnone. cbn. reflexivity.
Qed.

Lemma lower_not_dot (a : ascii) : lower a = "."%char -> a = "."%char.
Proof.
  unfold lower.
  destruct ((65 <=? nat_of_ascii a)%nat && (nat_of_ascii a <=? 90)%nat)
    eqn:Hupper; [|intros H; exact H].
  intros H. apply andb_prop in Hupper. destruct Hupper as [Hlo Hhi].
  apply Nat.leb_le in Hlo. apply Nat.leb_le in Hhi.
  apply (f_equal nat_of_ascii) in H.
  rewrite nat_ascii_embedding in H by lia.
  change (nat_of_ascii ".") with 46%nat in H. lia.
Qed.

(** A string that lowers to one without dot has none. *)
Lemma lastIndexOf_lowered (s : string) :
  lastIndexOf "." (toLowerCase s) = -1 -> lastIndexOf "." s = -1.
Proof.
  induction s as [|a s IH]; [reflexivity|].
  unfold lastIndexOf. cbn [toLowerCase lastIndexOf_from].
  destruct (lastIndexOf_from_shift "." (toLowerCase s) (0 + 1)
              (if Ascii.eqb (lower a) "." then 0 else -1)) as [Hr1 H1].
  destruct (lastIndexOf_from_shift "." s (0 + 1)
              (if Ascii.eqb a "." then 0 else -1)) as [Hr2 H2].
  rewrite H1, H2.
  destruct (Z.eqb_spec (lastIndexOf "." (toLowerCase s)) (-1)) as [Hnone|Hsome];
    [|lia].
  rewrite (IH Hnone). cbn.
  destruct (Ascii.eqb_spec (lower a) "."); [discriminate|].
  intros _. destruct (Ascii.eqb_spec a "."); [|reflexivity].
  subst a. exfalso. auto.
Qed.

End Strings.

Section Analyzer.
Import Axios Zustand ResumeAnalyzerPage.

(** X26.  A file whose name ends in [.pdf] or [.docx], in any mix of upper
    and lower case, is valid whatever type the browser reports for it.
    (The name is an ASCII string, as all strings here.) *)
Theorem isValidFile_by_extension (base ext type : string) (size : Z) :
  JsString.is_ascii (base ++ String "." ext) = true ->
  JsString.toLowerCase ext = "pdf" \/ JsString.toLowerCase ext = "docx" ->
  isValidFile {| name := base ++ String "." ext; ResumeAnalyzerPage.type := type;
                 ResumeAnalyzerPage.size := size |} = true.
Proof.
  intros _ Hext. unfold isValidFile. cbn [name ResumeAnalyzerPage.type].
  assert (Hnodot : JsString.lastIndexOf "." ext = -1).
  { apply lastIndexOf_lowered. destruct Hext as [H|H]; rewrite H; reflexivity. }
  rewrite lastIndexOf_extension by exact Hnodot.
  unfold JsString.slice. rewrite toLowerCase_app, app_length, toLowerCase_length.
  unfold JsArray.relative.
  destruct (Z.ltb_spec (Z.of_nat (String.length base)) 0) as [Hneg|_];
    [lia|].
  rewrite Z.min_l by lia. rewrite Nat2Z.id.
  rewrite <- (toLowerCase_length base) at 1. rewrite drop_app.
  apply orb_true_iff. right. cbn [JsString.toLowerCase].
  destruct Hext as [Hpdf|Hdocx]; [rewrite Hpdf|rewrite Hdocx]; reflexivity.
Qed.

(** X27.  A file whose name has no dot is valid only by its type: the
    extension test reads the last character of the name, which is no
    extension. *)
Theorem isValidFile_without_dot (file : File) :
  JsString.lastIndexOf "." (name file) = -1 ->
  isValidFile file
  = JsArray.includes (ResumeAnalyzerPage.type file) validTypes.
Proof.
  intros Hnodot. unfold isValidFile. rewrite Hnodot.
  set (ext := JsString.slice (JsString.toLowerCase (name file)) (-1)).
  assert (Hshort : (String.length ext <= 1)%nat).
  { subst ext. unfold JsString.slice, JsArray.relative. cbn [Z.ltb Z.compare].
    rewrite drop_length. lia. }
  assert (Hno : JsArray.includes ext validExtensions = false).
  { unfold JsArray.includes, validExtensions. cbn.
    destruct (String.eqb_spec ext ".pdf") as [H|_];
      [rewrite H in Hshort; cbn in Hshort; lia|].
    destruct (String.eqb_spec ext ".docx") as [H|_];
      [rewrite H in Hshort; cbn in Hshort; lia|].
    reflexivity. }
  rewrite Hno. apply orb_false_r.
Qed.

End Analyzer.

Lemma isValidFile_by_extension_witness :
  ResumeAnalyzerPage.isValidFile
    {| ResumeAnalyzerPage.name := "Resume.final.PDF";
       ResumeAnalyzerPage.type := "";
       ResumeAnalyzerPage.size := 0 |} = true.
Proof.
  exact (isValidFile_by_extension "Resume.final" "PDF" "" 0 eq_refl
           (or_introl eq_refl)).
Defined.

Lemma isValidFile_without_dot_witness :
  ResumeAnalyzerPage.isValidFile
    {| ResumeAnalyzerPage.name := "resume";
       ResumeAnalyzerPage.type := "text/plain";
       ResumeAnalyzerPage.size := 0 |} = false.
Proof.
  rewrite (isValidFile_without_dot
             {| ResumeAnalyzerPage.name := "resume";
                ResumeAnalyzerPage.type := "text/plain";
                ResumeAnalyzerPage.size := 0 |} eq_refl).
  reflexivity.
Defined.

Section AnalyzerRun.
Import Axios Zustand ResumeAnalyzerPage.
Context {Analysis : Type}.
Variable aiAPI_analyzeResume : Payload -> Settled Analysis.
Variable parseInt : string -> Z.
Variable response_error : AxiosError -> option string.

Lemma trim_blank (s : string) :
  JsString.is_blank s = true -> JsString.trim s = "".
Proof.
  intros Hblank.
  assert (Hstart : JsString.trimStart s = "").
  { unfold JsString.is_blank in Hblank.
    induction s as [|a s IH]; [reflexivity|].
    cbn in Hblank. apply andb_prop in Hblank. destruct Hblank as [Ha Hs].
    cbn [JsString.trimStart]. rewrite Ha. exact (IH Hs). }
  unfold JsString.trim. rewrite Hstart. reflexivity.
Qed.

(** X28.  In text mode a text made of white space only is not sent:
    [analyzeResume] asks for the text and makes no request, and the
    analysis shown is kept. *)
Theorem analyzeResume_blank_text (w : World (Cells Analysis)) :
  String.eqb (inputMode (store w)) "upload" = false ->
  JsString.is_blank (resumeText (store w)) = true ->
  let run := analyzeResume aiAPI_analyzeResume parseInt response_error in
  called run w = []
  /\ store (final run w)
     = setError Analysis (Some "Please paste your resume text") (store w).
Proof.
  intros Hmode Hblank. cbv zeta. unfold called. unfold analyzeResume.
  unfold_async. unfold canAnalyze.
  rewrite Hmode, (trim_blank _ Hblank). cbn.
  rewrite skipn_length_self. split; reflexivity.
Qed.

(** X29.  When there is something to analyze, [analyzeResume] shows the
    spinner, with the error and the previous analysis cleared, while the
    request is pending, and never afterwards.  The answer becomes the
    analysis; after a rejection there is no analysis left, the previous
    one included, and the error is the one in the body of the response or
    a fixed message. *)
Theorem analyzeResume_outcome (w : World (Cells Analysis)) :
  canAnalyze (store w) = true ->
  let run := analyzeResume aiAPI_analyzeResume parseInt response_error in
  let w' := final run w in
  returned run w = Normal tt
  /\ rendered run w
     = [setAnalysis Analysis None
          (setError Analysis None (setIsAnalyzing Analysis true (store w)))]
  /\ isAnalyzing (store w') = false
  /\ match aiAPI_analyzeResume (payload parseInt (store w)) with
     | Fulfilled response =>
         analysis (store w') = Some response /\ error (store w') = None
     | Rejected failure =>
         analysis (store w') = None
         /\ error (store w')
            = Some (Js.or_else (response_error failure)
                      "Failed to analyze resume. Please try again.")
     end.
Proof.
  intros Hcan. cbv zeta. unfold rendered. unfold analyzeResume.
  unfold_async. rewrite Hcan. cbn.
  destruct (aiAPI_analyzeResume (payload parseInt (store w))); cbn;
    rewrite skipn_length_app; repeat split.
Qed.

Lemma handleFileSelect_tidy (file : option File) (w : World (Cells Analysis)) :
  tidy parseInt w -> tidy parseInt (final (handleFileSelect file) w).
Proof.
  intros [Hfile Hsent]. unfold handleFileSelect.
  destruct file as [file|]; [|split; assumption].
  destruct (isValidFile file) eqn:Hvalid; cbn [negb].
  - destruct (Z.ltb_spec (10 * 1024 * 1024) (ResumeAnalyzerPage.size file))
      as [Hbig|Hfits].
    + split; assumption.
    + split; [|exact Hsent]. cbn. split; assumption.
  - split; assumption.
Qed.

Lemma act_tidy (a : Action) (w : World (Cells Analysis)) :
  tidy parseInt w ->
  tidy parseInt
    (final (act aiAPI_analyzeResume parseInt response_error a) w).
Proof.
  intros Htidy. destruct a as [files|files| |upload|text|id|]; cbn [act].
  - unfold handleDrop.
    apply (handleFileSelect_tidy (Js.index files 0)
             (final (set (setIsDragging Analysis false)) w)).
    destruct Htidy as [Hfile Hsent]. split; assumption.
  - unfold handleFileInput. apply handleFileSelect_tidy. exact Htidy.
  - destruct Htidy as [_ Hsent]. split; [exact I|exact Hsent].
  - destruct Htidy as [Hfile Hsent]. split; assumption.
  - destruct Htidy as [Hfile Hsent]. split; assumption.
  - destruct Htidy as [Hfile Hsent]. split; assumption.
  - destruct Htidy as [Hfile Hsent].
    unfold tidy, analyzeResume. unfold_async.
    destruct (canAnalyze (store w)) eqn:Hcan; cbn [negb].
    + assert (Hbody : sendable (payload parseInt (store w))).
      { unfold canAnalyze in Hcan. unfold payload.
        destruct (String.eqb (inputMode (store w)) "upload").
        - destruct (resumeFile (store w)) as [file|]; [exact Hfile|].
          discriminate Hcan.
        - exact Hcan. }
      destruct (aiAPI_analyzeResume (payload parseInt (store w))); cbn;
        (split; [exact Hfile|]); apply Forall_app; (split; [exact Hsent|]);
        constructor; try constructor; exact Hbody.
    + split; assumption.
Qed.


End AnalyzerRun.

Lemma analyzeResume_blank_text_witness :
  Zustand.called
    (ResumeAnalyzerPage.analyzeResume (fun _ => Axios.Fulfilled "great")
       (fun _ => 0) (fun _ => None))
    (Scenario.pasting "   ")
  = [].
Proof.
  exact (proj1 (analyzeResume_blank_text (fun _ => Axios.Fulfilled "great")
                  (fun _ => 0) (fun _ => None) (Scenario.pasting "   ")
                  eq_refl eq_refl)).
Defined.

Lemma analyzeResume_outcome_witness :
  ResumeAnalyzerPage.analysis
    (Zustand.store
       (Zustand.final
          (ResumeAnalyzerPage.analyzeResume (fun _ => Axios.Fulfilled "great")
             (fun _ => 0) (fun _ => None))
          (Scenario.pasting "ten years of Rocq")))
  = Some "great".
Proof.
  destruct (analyzeResume_outcome (fun _ => Axios.Fulfilled "great")
              (fun _ => 0) (fun _ => None)
              (Scenario.pasting "ten years of Rocq") eq_refl)
    as (_ & _ & _ & Hanalysis & _).
  exact Hanalysis.
Defined.
